(** * scribble: Measurement Set plotter -- a shallow embedding

    The development follows [scribble/plot_gui.py] (the current version) and
    [build/lib/scribble/plot_gui.py] (the packaged build, in [Module Build]).

    - arrays returned by [table.getcol] are a shape together with the cells
      in C order;
    - a table is the ordered list of its columns; the file system and the
      table library are one record [Env];
    - functions that open tables run in a small error monad that also keeps
      the trace of the [table(...)] calls;
    - the widgets of the Bokeh document are a record, callbacks are
      functions on it that either return or raise, keeping the assignments
      made before the exception;
    - three calls of the source are refused by the library they go to,
      whatever the data: [t.coldesc()] without a column name
      (python-casacore), [on_change] with a callback that has no positional
      parameter (Bokeh), and [tf.shade] with [cmap="fire"] (datashader).
      Each is modelled by the exception it raises, and the code that
      follows it is kept as the source has it.

    Sample values (floating point, complex) are never inspected by the
    program, so their type [V] is a parameter; so are the rasterizer and the
    column extents computed by pandas. *)

From Stdlib Require Import String Ascii List ZArith Bool Arith Lia.
From Stdlib Require Import DecimalString.
Import ListNotations.
Local Open Scope string_scope.
Local Open Scope list_scope.

Set Implicit Arguments.

(** ** Python values used throughout *)

(** Exceptions the code can meet. *)
Inductive exn : Type :=
| IndexError | ValueError | TypeError | KeyError | RuntimeError | OSError.

Inductive result (A : Type) : Type :=
| Ok (a : A)
| Raise (e : exn).
Arguments Ok {A} a.
Arguments Raise {A} e.

Definition rbind {A B} (r : result A) (k : A -> result B) : result B :=
  match r with
  | Ok a => k a
  | Raise e => Raise e
  end.

Declare Scope result_scope.
Delimit Scope result_scope with res.
Notation "x <- r ;; k" := (rbind r (fun x => k))
  (at level 61, r at next level, right associativity) : result_scope.

(** [x in l] for strings. *)
Definition str_in (x : string) (l : list string) : bool :=
  existsb (String.eqb x) l.

(** Truth value of an optional string: [None] and [""] are falsy. *)
Definition truthy (o : option string) : bool :=
  match o with
  | Some s => negb (String.eqb s "")
  | None => false
  end.

(** [str(n)] for an integer. *)
Definition str_of_Z (z : Z) : string := NilZero.string_of_int (Z.to_int z).
Definition str_of_nat (n : nat) : string := str_of_Z (Z.of_nat n).

(** [dict[k] = v]: replaces the value of an existing key in place, appends a
    new key (Python dicts iterate in insertion order). *)
Fixpoint dict_set {A} (d : list (string * A)) (k : string) (v : A)
  : list (string * A) :=
  match d with
  | [] => [(k, v)]
  | (k', v') :: rest =>
      if String.eqb k k' then (k, v) :: rest else (k', v') :: dict_set rest k v
  end.

Fixpoint dict_get {A} (d : list (string * A)) (k : string) : option A :=
  match d with
  | [] => None
  | (k', v) :: rest => if String.eqb k k' then Some v else dict_get rest k
  end.

(** [set.add] on a set kept as a duplicate-free list.  Python iterates a set
    of strings in hash order; the model keeps insertion order, one of the
    admissible orders. *)
Definition set_add (x : string) (s : list string) : list string :=
  if str_in x s then s else s ++ [x].

(** ** Paths ([os.path]) *)

Definition starts_with_sep (s : string) : bool :=
  match s with
  | String c _ => Ascii.eqb c "/"
  | EmptyString => false
  end.

Fixpoint ends_with_sep (s : string) : bool :=
  match s with
  | EmptyString => false
  | String c EmptyString => Ascii.eqb c "/"
  | String _ rest => ends_with_sep rest
  end.

(** [os.path.join(a, b)] (posixpath). *)
Definition path_join (a b : string) : string :=
  if starts_with_sep b then b
  else if String.eqb a "" || ends_with_sep a then (a ++ b)%string
  else (a ++ "/" ++ b)%string.

(** [str.isspace] on ASCII: TAB..CR, FS..US and the space. *)
Definition is_space (c : ascii) : bool :=
  let n := nat_of_ascii c in
  ((9 <=? n)%nat && (n <=? 13)%nat) || ((28 <=? n)%nat && (n <=? 32)%nat).

Fixpoint lstrip (s : string) : string :=
  match s with
  | String c rest => if is_space c then lstrip rest else s
  | EmptyString => EmptyString
  end.

Fixpoint rstrip (s : string) : string :=
  match s with
  | EmptyString => EmptyString
  | String c rest =>
      match rstrip rest with
      | EmptyString => if is_space c then EmptyString else String c EmptyString
      | r => String c r
      end
  end.

(** [str.strip()]. *)
Definition strip (s : string) : string := rstrip (lstrip s).

(** ** numpy arrays *)

(** An array: its shape and its cells in C (row-major) order. *)
Record ndarray (A : Type) : Type := mk_ndarray {
  shape : list nat;
  cells : list A
}.

Definition ndim {A} (a : ndarray A) : nat := length (shape a).

Definition size_of (sh : list nat) : nat := fold_right Nat.mul 1 sh.

(** The arrays numpy builds: as many cells as the shape says. *)
Definition well_shaped {A} (a : ndarray A) : Prop :=
  length (cells a) = size_of (shape a).

(** [a.flatten()]: the cells, as one axis. *)
Definition flatten {A} (a : ndarray A) : list A := cells a.

(** Cells [k], [k + c], [k + 2c], ... : the positions of index [k] on a last
    axis of length [c], among [n] groups. *)
Definition stride_pick {A} (n c k : nat) (l : list A) : list A :=
  flat_map (fun i => match nth_error l (i * c + k) with
                     | Some v => [v]
                     | None => []
                     end) (seq 0 n).

(** [a[:, :, k]] on a three-axis array; numpy raises IndexError when [k] is
    not below the length of the last axis. *)
Definition slice_last {A} (a : ndarray A) (k : nat) : result (ndarray A) :=
  match shape a with
  | [n; m; c] =>
      if (k <? c)%nat
      then Ok (mk_ndarray [n; m] (stride_pick (n * m) c k (cells a)))
      else Raise IndexError
  | _ => Raise IndexError
  end.

(** [arr[mask]] with a boolean mask: the cells where the mask is True;
    IndexError when the lengths differ. *)
Fixpoint select {A} (mask : list bool) (l : list A) : list A :=
  match mask, l with
  | b :: mask', x :: l' => if b then x :: select mask' l' else select mask' l'
  | _, _ => []
  end.

Definition bool_index {A} (mask : list bool) (l : list A) : result (list A) :=
  if (length mask =? length l)%nat then Ok (select mask l) else Raise IndexError.

(** [arr[i]] for one integer: a negative index counts from the end;
    IndexError outside [-n, n). *)
Definition item {A} (l : list A) (i : Z) : result A :=
  let n := Z.of_nat (length l) in
  let j := if (i <? 0)%Z then (i + n)%Z else i in
  if (0 <=? j)%Z && (j <? n)%Z then
    match nth_error l (Z.to_nat j) with
    | Some x => Ok x
    | None => Raise IndexError
    end
  else Raise IndexError.

(** [arr[idx]] with an array of integers: the cell at each index in turn. *)
Fixpoint int_index {A} (idx : list Z) (l : list A) : result (list A) :=
  match idx with
  | [] => Ok []
  | i :: idx' =>
      (x <- item l i ;;
       rest <- int_index idx' l ;;
       Ok (x :: rest))%res
  end.

(** ** The monad of table access

    A computation that may open tables: it returns or raises, and extends
    the trace of the paths given to [table(...)]. *)

Definition IO (A : Type) : Type := list string -> result A * list string.

Definition io_ret {A} (a : A) : IO A := fun tr => (Ok a, tr).

Definition io_lift {A} (r : result A) : IO A := fun tr => (r, tr).

Definition io_bind {A B} (m : IO A) (k : A -> IO B) : IO B :=
  fun tr =>
    match m tr with
    | (Ok a, tr') => k a tr'
    | (Raise e, tr') => (Raise e, tr')
    end.

(** [try: m  except Exception: h]. *)
Definition io_try {A} (m : IO A) (h : IO A) : IO A :=
  fun tr =>
    match m tr with
    | (Ok a, tr') => (Ok a, tr')
    | (Raise _, tr') => h tr'
    end.

Declare Scope io_scope.
Delimit Scope io_scope with io.
Notation "x <- m ;; k" := (io_bind m (fun x => k))
  (at level 61, m at next level, right associativity) : io_scope.

Section Scribble.

(** Sample values of the data columns (floats, complex numbers). *)
Variable V : Type.

(** ** Tables (casacore) *)

(** A column as [getcol] returns it: one array, of booleans (FLAG), of
    integers (CORR_TYPE, antenna and field numbers) or of samples. *)
Inductive column : Type :=
| BoolCol (a : ndarray bool)
| IntCol (a : ndarray Z)
| ValCol (a : ndarray V).

(** A one-axis array: what [load_ms_data] keeps per column. *)
Inductive series : Type :=
| BoolSeries (l : list bool)
| IntSeries (l : list Z)
| ValSeries (l : list V).

Definition series_len (s : series) : nat :=
  match s with
  | BoolSeries l => length l
  | IntSeries l => length l
  | ValSeries l => length l
  end.

Definition col_ndim (c : column) : nat :=
  match c with
  | BoolCol a => ndim a
  | IntCol a => ndim a
  | ValCol a => ndim a
  end.

Definition col_slice_last (c : column) (k : nat) : result column :=
  match c with
  | BoolCol a => (a' <- slice_last a k ;; Ok (BoolCol a'))%res
  | IntCol a => (a' <- slice_last a k ;; Ok (IntCol a'))%res
  | ValCol a => (a' <- slice_last a k ;; Ok (ValCol a'))%res
  end.

Definition col_flatten (c : column) : series :=
  match c with
  | BoolCol a => BoolSeries (flatten a)
  | IntCol a => IntSeries (flatten a)
  | ValCol a => ValSeries (flatten a)
  end.

(** [s[mask]] with a boolean mask. *)
Definition series_index (mask : list bool) (s : series) : result series :=
  match s with
  | BoolSeries l => (l' <- bool_index mask l ;; Ok (BoolSeries l'))%res
  | IntSeries l => (l' <- bool_index mask l ;; Ok (IntSeries l'))%res
  | ValSeries l => (l' <- bool_index mask l ;; Ok (ValSeries l'))%res
  end.

(** [s[idx]] with an array of integers. *)
Definition series_int_index (idx : list Z) (s : series) : result series :=
  match s with
  | BoolSeries l => (l' <- int_index idx l ;; Ok (BoolSeries l'))%res
  | IntSeries l => (l' <- int_index idx l ;; Ok (IntSeries l'))%res
  | ValSeries l => (l' <- int_index idx l ;; Ok (ValSeries l'))%res
  end.

(** [s[mask]] as numpy reads it from the dtype of [mask]: a boolean mask
    selects, an array of integers picks cells by position, and an array of
    another dtype is no index (IndexError). *)
Definition series_take (mask : series) (s : series) : result series :=
  match mask with
  | BoolSeries m => series_index m s
  | IntSeries idx => series_int_index idx s
  | ValSeries _ => Raise IndexError
  end.

(** [~a]: the logical not of booleans, the bitwise not [-x-1] of (signed)
    integers; numpy has no [~] for floats and complex numbers
    (TypeError). *)
Definition invert (a : series) : result series :=
  match a with
  | BoolSeries l => Ok (BoolSeries (map negb l))
  | IntSeries l => Ok (IntSeries (map (fun x => (- x - 1)%Z) l))
  | ValSeries _ => Raise TypeError
  end.

(** A column of a table: the ['shape'] entry of its description, when it
    has one, and its contents. *)
Record col_entry : Type := mk_col {
  desc_shape : option (list nat);
  contents : column
}.

(** A table: its columns, in the order of [colnames()]. *)
Definition Table : Type := list (string * col_entry).

Definition colnames (t : Table) : list string := map fst t.

(** [t.getcol(c)]; casacore raises RuntimeError for an unknown column. *)
Definition getcol (t : Table) (c : string) : result column :=
  match dict_get t c with
  | Some e => Ok (contents e)
  | None => Raise RuntimeError
  end.

(** [t.coldesc()[c].get('shape', [])] for a column [c] of the table. *)
Definition coldesc_shape (t : Table) (c : string) : list nat :=
  match dict_get t c with
  | Some e => match desc_shape e with Some sh => sh | None => [] end
  | None => []
  end.

(** The file system and the table library seen by the program. *)
Record Env : Type := mk_env {
  listdir : string -> option (list string);
  isdir : string -> bool;
  path_exists : string -> bool;
  abspath : string -> string;
  open_table : string -> option Table
}.

(** [table(path)]: casacore raises RuntimeError when it cannot open it. *)
Definition table (env : Env) (path : string) : IO Table :=
  fun tr =>
    (match open_table env path with
     | Some t => Ok t
     | None => Raise RuntimeError
     end, tr ++ [path]).

(** ** [plot_gui.py], module level *)

Definition VIS_COLUMNS : list string :=
  ["DATA"; "CORRECTED_DATA"; "MODEL_DATA"; "RESIDUAL_DATA"].

(** The test of [list_possible_ms_dirs] and of the build's [on_load]:
    a directory with an entry named TABLES. *)
Definition looks_like_ms (env : Env) (fpath : string) : bool :=
  isdir env fpath && path_exists env (path_join fpath "TABLES").

(** [list_possible_ms_dirs(path)] (lines 16-23); [os.listdir] raises OSError
    on a path it cannot list. *)
Definition list_possible_ms_dirs (env : Env) (path : string)
  : result (list string) :=
  match listdir env path with
  | None => Raise OSError
  | Some entries =>
      Ok (filter (fun f => looks_like_ms env (path_join path f)) entries)
  end.

Record colinfo : Type := mk_colinfo {
  ci_shape : list nat;
  n_corr : nat;
  n_chan : nat
}.

(** [shape[-1] if len(shape) >= 1 else 1] and
    [shape[-2] if len(shape) >= 2 else 1]. *)
Definition last_or_1 (sh : list nat) : nat := last sh 1.
Definition last2_or_1 (sh : list nat) : nat :=
  if (2 <=? length sh)%nat then nth (length sh - 2) sh 1 else 1.

(** The loop of [load_ms_columns] over VIS_COLUMNS (lines 30-35). *)
Fixpoint vis_info (t : Table) (cs : list string) (acc : list (string * colinfo))
  : list (string * colinfo) :=
  match cs with
  | [] => acc
  | c :: cs' =>
      if str_in c (colnames t)
      then let sh := coldesc_shape t c in
           vis_info t cs'
             (dict_set acc c (mk_colinfo sh (last_or_1 sh) (last2_or_1 sh)))
      else vis_info t cs' acc
  end.

(** [t.coldesc(columnname)], the description of one column.  The column
    name is a required parameter of python-casacore's [coldesc]: a call
    that leaves it out is a TypeError, and casacore raises RuntimeError for
    an unknown column. *)
Definition coldesc (t : Table) (columnname : option string)
  : result col_entry :=
  match columnname with
  | None => Raise TypeError
  | Some c =>
      match dict_get t c with
      | Some e => Ok e
      | None => Raise RuntimeError
      end
  end.

(** [load_ms_columns] (lines 25-37).  Line 28 is [desc = t.coldesc()], with
    no column name, so the function raises TypeError as soon as the table
    is open; the loop of lines 29-35 and [t.close()] are never reached.
    They are kept after the call as the source has them, [vis_info] reading
    the shapes the way [desc[c]] was meant to. *)
Definition load_ms_columns (env : Env) (ms_path : string)
  : IO (list string * list (string * colinfo)) :=
  (t <- table env ms_path ;;
   desc <- io_lift (coldesc t None) ;;
   io_ret (colnames t, vis_info t VIS_COLUMNS []))%io.

(** The body of the loop over [usecols] in [load_ms_data] (lines 42-52):
    the one-axis array stored as [arrs[c]]. *)
Definition fetch (t : Table) (corr_idx : option nat) (c : string)
  : result series :=
  (data <- getcol t c ;;
   if str_in c VIS_COLUMNS then
     data' <- match corr_idx with
              | Some k => if (col_ndim data =? 3)%nat
                          then col_slice_last data k else Ok data
              | None => Ok data
              end ;;
     Ok (col_flatten data')
   else
     (* flattened when it has several axes, kept when it has one *)
     Ok (col_flatten data))%res.

Fixpoint fetch_all (t : Table) (corr_idx : option nat) (usecols : list string)
  (arrs : list (string * series)) : result (list (string * series)) :=
  match usecols with
  | [] => Ok arrs
  | c :: rest =>
      (s <- fetch t corr_idx c ;;
       fetch_all t corr_idx rest (dict_set arrs c s))%res
  end.

(** [flags.flatten()], after the correlation slice (lines 55-58). *)
Definition flags_flat (t : Table) (corr_idx : option nat) (flag_col : string)
  : result series :=
  (flags <- getcol t flag_col ;;
   flags' <- match corr_idx with
             | Some k => if (col_ndim flags =? 3)%nat
                         then col_slice_last flags k else Ok flags
             | None => Ok flags
             end ;;
   Ok (col_flatten flags'))%res.

(** The flattened flags read as booleans, which is what they are for the
    FLAG column of a Measurement Set.  The code does not test the dtype:
    the flags of an integer column go through [invert] and
    [series_int_index] in [load_from], and this reading has no value for
    them. *)
Definition flat_flags (t : Table) (corr_idx : option nat) (flag_col : string)
  : result (list bool) :=
  (flags <- flags_flat t corr_idx flag_col ;;
   match flags with
   | BoolSeries l => Ok l
   | _ => Raise TypeError
   end)%res.

(** [for k in arrs.keys(): arrs[k] = arrs[k][mask]]. *)
Fixpoint mask_all (mask : series) (arrs : list (string * series))
  : result (list (string * series)) :=
  match arrs with
  | [] => Ok []
  | (k, s) :: rest =>
      (s' <- series_take mask s ;;
       rest' <- mask_all mask rest ;;
       Ok ((k, s') :: rest'))%res
  end.

(** A pandas DataFrame: named one-axis columns of one length. *)
Definition DataFrame : Type := list (string * series).

(** [pd.DataFrame(arrs)]: ValueError unless all arrays have one length. *)
Definition mk_DataFrame (arrs : list (string * series)) : result DataFrame :=
  match arrs with
  | [] => Ok []
  | (_, s) :: rest =>
      if forallb (fun p => (series_len (snd p) =? series_len s)%nat) rest
      then Ok arrs else Raise ValueError
  end.

(** [len(df)] and [df.empty]. *)
Definition df_len (df : DataFrame) : nat :=
  match df with
  | [] => 0
  | (_, s) :: _ => series_len s
  end.

Definition df_empty (df : DataFrame) : bool :=
  match df with
  | [] => true
  | _ => (df_len df =? 0)%nat
  end.

(** [load_ms_data] (lines 39-63) once the table is open. *)
Definition load_from (t : Table) (usecols : list string)
  (corr_idx : option nat) (flag_col : option string) : result DataFrame :=
  (arrs <- fetch_all t corr_idx usecols [] ;;
   arrs' <- match flag_col with
            | Some fc =>
                if truthy flag_col && str_in fc (colnames t)
                then flags <- flags_flat t corr_idx fc ;;
                     mask <- invert flags ;;
                     mask_all mask arrs
                else Ok arrs
            | None => Ok arrs
            end ;;
   mk_DataFrame arrs')%res.

Definition load_ms_data (env : Env) (ms_path : string)
  (usecols : list string) (corr_idx : option nat) (flag_col : option string)
  : IO DataFrame :=
  (t <- table env ms_path ;;
   io_lift (load_from t usecols corr_idx flag_col))%io.

(** ** Correlation labels *)

Definition CORR_MAP : list (Z * string) :=
  [(5%Z, "RR"); (6%Z, "RL"); (7%Z, "LR"); (8%Z, "LL");
   (9%Z, "XX"); (10%Z, "XY"); (11%Z, "YX"); (12%Z, "YY")].

(** [CORR_MAP.get(c, str(c))]. *)
Definition corr_label (c : Z) : string :=
  match find (fun p => Z.eqb (fst p) c) CORR_MAP with
  | Some p => snd p
  | None => str_of_Z c
  end.

(** [t.getcol("CORR_TYPE")[0]], iterated as the correlation codes: the first
    row of a two-axis integer array.  With no row the index raises; with one
    axis the row is a scalar and with more it holds arrays, and the
    comprehension raises TypeError.  CORR_TYPE is an integer column in a
    Measurement Set; another dtype is outside the model and raises too. *)
Definition first_row (c : column) : result (list Z) :=
  match c with
  | IntCol a =>
      match shape a with
      | [r; n] => if (r =? 0)%nat then Raise IndexError
                  else Ok (firstn n (cells a))
      | [] => Raise IndexError
      | _ => Raise TypeError
      end
  | _ => Raise TypeError
  end.

Definition get_corr_labels (env : Env) (ms_path vis_col : string)
  : IO (list string) :=
  let pol_path := path_join ms_path "POLARIZATION" in
  io_try
    (t <- table env pol_path ;;
     io_lift (c <- getcol t "CORR_TYPE" ;;
              corr_types <- first_row c ;;
              Ok (map corr_label corr_types))%res)%io
    (cv <- load_ms_columns env ms_path ;;
     let n := match dict_get (snd cv) vis_col with
              | Some ci => n_corr ci
              | None => 4
              end in
     io_ret (map str_of_nat (seq 0 n)))%io.

(** ** The Bokeh document

    The external rendering pipeline is a parameter: [shade df xcol ycol] is
    the RGBA buffer datashader would produce for two columns of the frame,
    and [col_min], [col_max] and [scalar_sub] are the extents pandas
    computes. *)

Variable Image : Type.
Variable Scalar : Type.
Variable shade : DataFrame -> string -> string -> Image.
Variable col_min : series -> Scalar.
Variable col_max : series -> Scalar.
Variable scalar_sub : Scalar -> Scalar -> Scalar.

Record Select : Type := mk_select {
  options : list string;
  value : option string
}.

Record MultiSelect : Type := mk_multi {
  m_options : list string;
  m_value : list string;
  visible : bool
}.

(** [render.data_source.data]. *)
Record RenderData : Type := mk_render {
  image : list Image;
  r_x : list Scalar;
  r_y : list Scalar;
  r_dw : list Scalar;
  r_dh : list Scalar
}.

(** [outfig] with its one image renderer. *)
Record Figure : Type := mk_figure {
  title : string;
  render : RenderData
}.

Definition empty_render : RenderData := mk_render [] [] [] [] [].

(** The state [bokeh_app] closes over.  [flag_col] is the local variable of
    [bokeh_app], the one [run_plot] reads; [global_flag_col] is the module
    global that the [global flag_col] statement of [ms_chosen] binds
    ([None] while it is unbound).  [trace] lists the [table(...)] calls and
    [exported] the files written. *)
Record State : Type := mk_state {
  selected_ms : option string;
  ms_select : Select;
  axis_opts : list string;
  vis_colinfo : list (string * colinfo);
  flag_col : option string;
  global_flag_col : option (option string);
  select_x : Select;
  select_y : Select;
  select_group : Select;
  select_corr : MultiSelect;
  plot_button_disabled : bool;
  export_button_disabled : bool;
  status_div : string;
  outfig : Figure;
  trace : list string;
  exported : list (string * Figure)
}.

Definition set_selected_ms (v : option string) (s : State)
  : State :=
  mk_state v (ms_select s) (axis_opts s) (vis_colinfo s) (flag_col s)
    (global_flag_col s) (select_x s) (select_y s) (select_group s)
    (select_corr s) (plot_button_disabled s) (export_button_disabled s)
    (status_div s) (outfig s) (trace s) (exported s).

Definition set_ms_select (v : Select) (s : State)
  : State :=
  mk_state (selected_ms s) v (axis_opts s) (vis_colinfo s) (flag_col s)
    (global_flag_col s) (select_x s) (select_y s) (select_group s)
    (select_corr s) (plot_button_disabled s) (export_button_disabled s)
    (status_div s) (outfig s) (trace s) (exported s).

Definition set_axis_opts (v : list string) (s : State)
  : State :=
  mk_state (selected_ms s) (ms_select s) v (vis_colinfo s) (flag_col s)
    (global_flag_col s) (select_x s) (select_y s) (select_group s)
    (select_corr s) (plot_button_disabled s) (export_button_disabled s)
    (status_div s) (outfig s) (trace s) (exported s).

Definition set_vis_colinfo (v : list (string * colinfo)) (s : State)
  : State :=
  mk_state (selected_ms s) (ms_select s) (axis_opts s) v (flag_col s)
    (global_flag_col s) (select_x s) (select_y s) (select_group s)
    (select_corr s) (plot_button_disabled s) (export_button_disabled s)
    (status_div s) (outfig s) (trace s) (exported s).

Definition set_flag_col (v : option string) (s : State)
  : State :=
  mk_state (selected_ms s) (ms_select s) (axis_opts s) (vis_colinfo s) v
    (global_flag_col s) (select_x s) (select_y s) (select_group s)
    (select_corr s) (plot_button_disabled s) (export_button_disabled s)
    (status_div s) (outfig s) (trace s) (exported s).

Definition set_global_flag_col (v : option (option string)) (s : State)
  : State :=
  mk_state (selected_ms s) (ms_select s) (axis_opts s) (vis_colinfo s)
    (flag_col s) v (select_x s) (select_y s) (select_group s)
    (select_corr s) (plot_button_disabled s) (export_button_disabled s)
    (status_div s) (outfig s) (trace s) (exported s).

Definition set_select_x (v : Select) (s : State)
  : State :=
  mk_state (selected_ms s) (ms_select s) (axis_opts s) (vis_colinfo s)
    (flag_col s) (global_flag_col s) v (select_y s) (select_group s)
    (select_corr s) (plot_button_disabled s) (export_button_disabled s)
    (status_div s) (outfig s) (trace s) (exported s).

Definition set_select_y (v : Select) (s : State)
  : State :=
  mk_state (selected_ms s) (ms_select s) (axis_opts s) (vis_colinfo s)
    (flag_col s) (global_flag_col s) (select_x s) v (select_group s)
    (select_corr s) (plot_button_disabled s) (export_button_disabled s)
    (status_div s) (outfig s) (trace s) (exported s).

Definition set_select_group (v : Select) (s : State)
  : State :=
  mk_state (selected_ms s) (ms_select s) (axis_opts s) (vis_colinfo s)
    (flag_col s) (global_flag_col s) (select_x s) (select_y s) v
    (select_corr s) (plot_button_disabled s) (export_button_disabled s)
    (status_div s) (outfig s) (trace s) (exported s).

Definition set_select_corr (v : MultiSelect) (s : State)
  : State :=
  mk_state (selected_ms s) (ms_select s) (axis_opts s) (vis_colinfo s)
    (flag_col s) (global_flag_col s) (select_x s) (select_y s)
    (select_group s) v (plot_button_disabled s) (export_button_disabled s)
    (status_div s) (outfig s) (trace s) (exported s).

Definition set_plot_button_disabled (v : bool) (s : State)
  : State :=
  mk_state (selected_ms s) (ms_select s) (axis_opts s) (vis_colinfo s)
    (flag_col s) (global_flag_col s) (select_x s) (select_y s)
    (select_group s) (select_corr s) v (export_button_disabled s)
    (status_div s) (outfig s) (trace s) (exported s).

Definition set_export_button_disabled (v : bool) (s : State)
  : State :=
  mk_state (selected_ms s) (ms_select s) (axis_opts s) (vis_colinfo s)
    (flag_col s) (global_flag_col s) (select_x s) (select_y s)
    (select_group s) (select_corr s) (plot_button_disabled s) v
    (status_div s) (outfig s) (trace s) (exported s).

Definition set_status_div (v : string) (s : State)
  : State :=
  mk_state (selected_ms s) (ms_select s) (axis_opts s) (vis_colinfo s)
    (flag_col s) (global_flag_col s) (select_x s) (select_y s)
    (select_group s) (select_corr s) (plot_button_disabled s)
    (export_button_disabled s) v (outfig s) (trace s) (exported s).

Definition set_outfig (v : Figure) (s : State)
  : State :=
  mk_state (selected_ms s) (ms_select s) (axis_opts s) (vis_colinfo s)
    (flag_col s) (global_flag_col s) (select_x s) (select_y s)
    (select_group s) (select_corr s) (plot_button_disabled s)
    (export_button_disabled s) (status_div s) v (trace s) (exported s).

Definition set_trace (v : list string) (s : State)
  : State :=
  mk_state (selected_ms s) (ms_select s) (axis_opts s) (vis_colinfo s)
    (flag_col s) (global_flag_col s) (select_x s) (select_y s)
    (select_group s) (select_corr s) (plot_button_disabled s)
    (export_button_disabled s) (status_div s) (outfig s) v (exported s).

Definition set_exported (v : list (string * Figure)) (s : State)
  : State :=
  mk_state (selected_ms s) (ms_select s) (axis_opts s) (vis_colinfo s)
    (flag_col s) (global_flag_col s) (select_x s) (select_y s)
    (select_group s) (select_corr s) (plot_button_disabled s)
    (export_button_disabled s) (status_div s) (outfig s) (trace s) v.

(** A callback returns, or raises and leaves the assignments it made. *)
Inductive outcome : Type :=
| Returned (s : State)
| Raised (e : exn) (s : State).

Definition state_of (o : outcome) : State :=
  match o with
  | Returned s => s
  | Raised _ s => s
  end.

Definition and_then (o : outcome) (k : State -> outcome) : outcome :=
  match o with
  | Returned s => k s
  | Raised e s => Raised e s
  end.

Declare Scope cb_scope.
Delimit Scope cb_scope with cb.
Notation "s <~ o ;; k" := (and_then o (fun s => k))
  (at level 61, o at next level, right associativity) : cb_scope.

(** A table computation run from a callback: the trace is the state's. *)
Definition run_io {A} (m : IO A) (s : State) : result A * State :=
  let (r, tr) := m (trace s) in (r, set_trace tr s).

Definition opt_eqb (a b : option string) : bool :=
  match a, b with
  | Some x, Some y => String.eqb x y
  | None, None => true
  | _, _ => false
  end.

(** [k in d] for a dict and a widget value. *)
Definition has_key {A} (d : list (string * A)) (k : option string) : bool :=
  match k with
  | Some k' => match dict_get d k' with Some _ => true | None => false end
  | None => false
  end.

Definition is_nil {A} (l : list A) : bool :=
  match l with [] => true | _ => false end.

(** [not (set(a) - set(b))]. *)
Definition subset_of (a b : list string) : bool :=
  forallb (fun x => str_in x b) a.

(** [l.index(x)]; ValueError when [x] is not in the list. *)
Fixpoint index_of (x : string) (l : list string) : result nat :=
  match l with
  | [] => Raise ValueError
  | y :: rest =>
      if String.eqb y x then Ok 0
      else (i <- index_of x rest ;; Ok (S i))%res
  end.

(** [[c for c in colnames if c != 'FLAG']], the comprehension of
    [ms_chosen] and [on_load]. *)
Definition axis_options (cols : list string) : list string :=
  filter (fun c => negb (String.eqb c "FLAG")) cols.

(** *** The request [run_plot] builds from the widgets *)

(** [select_group.value if select_group.value != "None" else None]. *)
Definition group_column (sg : Select) : option string :=
  if opt_eqb (value sg) (Some "None") then None else value sg.

(** [select_corr.value if select_corr.visible else None]. *)
Definition used_corr (sc : MultiSelect) : option (list string) :=
  if visible sc then Some (m_value sc) else None.

(** [corr_idx] (lines 166-170): the position of [usecorr[0]] among the options when
    [usecorr] is a non-empty list, else None. *)
Definition corr_index (sc : MultiSelect) : result (option nat) :=
  match used_corr sc with
  | Some (u0 :: _) =>
      if visible sc
      then (i <- index_of u0 (m_options sc) ;; Ok (Some i))%res
      else Ok None
  | _ => Ok None
  end.

(** [usecols] (lines 171-176): the set of the two axes, the group column
    and the flag column when they are truthy, and the visibility columns
    among the axes.  [list(usecols)] lists a Python set, in the order of
    the string hashes, which differs from run to run; the list built here
    has the same members in the order they were added, and what is proved
    about it below rests on its members only. *)
Definition use_columns (xcol ycol : string) (groupcol flag_col : option string)
  (vis : list string) : list string :=
  let usecols := set_add ycol (set_add xcol []) in
  let usecols :=
    match groupcol with
    | Some g => if truthy groupcol then set_add g usecols else usecols
    | None => usecols
    end in
  let usecols :=
    match flag_col with
    | Some f => if truthy flag_col then set_add f usecols else usecols
    | None => usecols
    end in
  fold_left (fun acc v =>
               if String.eqb xcol v || String.eqb ycol v
               then set_add v acc else acc) vis usecols.

(** The title: [f"{xcol} vs {ycol}"] and, when [usecorr] is a non-empty
    list, [f" ({usecorr[0]})"]. *)
Definition plot_title (xcol ycol : string) (sc : MultiSelect) : string :=
  (xcol ++ " vs " ++ ycol
   ++ match used_corr sc with
      | Some (u0 :: _) => " (" ++ u0 ++ ")"
      | _ => ""
      end)%string.

Definition plotted_msg (df : DataFrame) : string :=
  ("Plotted " ++ str_of_nat (df_len df) ++ " points.")%string.

(** [df[col]]: the frame holds the column. *)
Definition df_col (df : DataFrame) (c : string) : result series :=
  match dict_get df c with
  | Some sr => Ok sr
  | None => Raise KeyError
  end.

(** [tf.shade(agg, cmap="fire", how="linear")] (line 183; line 159 of the
    build).  datashader takes a string [cmap] for one colour, a hex code or
    a colour name, and "fire" names a palette, not a colour: the call
    raises ValueError whatever was aggregated.  ([cvs.points], the line
    before, raises ValueError too when an axis is complex.)  [img] is the
    image the palette would have given. *)
Definition shade_fire (img : Image) : result Image := Raise ValueError.

(** [widget.on_change("value", callback)]: Bokeh checks the signature of
    the callback when it is registered and raises ValueError unless it has
    exactly three positional parameters, [(attr, old, new)].  [params] is
    their number for the callback given; [*args] counts for none. *)
Definition on_change (params : nat) : result unit :=
  if (params =? 3)%nat then Ok tt else Raise ValueError.

(** *** Callbacks of the current version *)

Section Callbacks.

Variable env : Env.

Definition update_corr_visibility (s : State) : outcome :=
  let inx := has_key (vis_colinfo s) (value (select_x s)) in
  let iny := has_key (vis_colinfo s) (value (select_y s)) in
  let any_vis := inx || iny in
  let sc := select_corr s in
  let s1 := set_select_corr (mk_multi (m_options sc) (m_value sc) any_vis) s in
  if any_vis then
    let viscol := if inx then value (select_x s) else value (select_y s) in
    match selected_ms s1, viscol with
    | Some path, Some vc =>
        match run_io (get_corr_labels env path vc) s1 with
        | (Raise e, s2) => Raised e s2
        | (Ok corr_labels, s2) =>
            let s3 :=
              set_select_corr (mk_multi corr_labels (m_value sc) any_vis) s2 in
            if is_nil (m_value sc) || negb (subset_of (m_value sc) corr_labels)
            then match corr_labels with
                 | l0 :: _ =>
                     Returned (set_select_corr
                                 (mk_multi corr_labels [l0] any_vis) s3)
                 | [] => Raised IndexError s3
                 end
            else Returned s3
        end
    | _, _ => Raised TypeError s1
    end
  else Returned (set_select_corr (mk_multi [] [] any_vis) s1).

(** [select_x.value = v]: the [on_change] callback runs when the value
    changes. *)
Definition assign_x (v : option string) (s : State) : outcome :=
  let sx := select_x s in
  let s' := set_select_x (mk_select (options sx) v) s in
  if opt_eqb (value sx) v then Returned s' else update_corr_visibility s'.

Definition assign_y (v : option string) (s : State) : outcome :=
  let sy := select_y s in
  let s' := set_select_y (mk_select (options sy) v) s in
  if opt_eqb (value sy) v then Returned s' else update_corr_visibility s'.

Definition ms_chosen (s : State) : outcome :=
  if truthy (value (ms_select s)) then
    match value (ms_select s) with
    | None => Returned s
    | Some v =>
        let ms_path := abspath env v in
        let s1 := set_selected_ms (Some ms_path) s in
        match run_io (load_ms_columns env ms_path) s1 with
        | (Raise e, s2) => Raised e s2
        | (Ok (cols, visinfo), s2) =>
            let opts := axis_options cols in
            let s3 := set_vis_colinfo visinfo (set_axis_opts opts s2) in
            let s4 := set_select_x (mk_select opts (value (select_x s3))) s3 in
            match opts with
            | [] => Raised IndexError s4
            | a0 :: _ =>
                (s5 <~ assign_x (Some a0) s4 ;;
                 let s6 :=
                   set_select_y (mk_select opts (value (select_y s5))) s5 in
                 match nth_error opts 1 with
                 | None => Raised IndexError s6
                 | Some a1 =>
                     s7 <~ assign_y (Some a1) s6 ;;
                     let s8 := set_select_group
                                 (mk_select ("None" :: opts) (Some "None")) s7 in
                     s9 <~ update_corr_visibility s8 ;;
                     Returned
                       (set_global_flag_col
                          (Some (if str_in "FLAG" cols
                                 then Some "FLAG" else None))
                          (set_export_button_disabled false
                             (set_plot_button_disabled false s9)))
                 end)%cb
            end
        end
    end
  else Returned s.

(** [ms_select.value = v]: [ms_chosen] runs when the value changes. *)
Definition assign_ms (v : option string) (s : State) : outcome :=
  let sm := ms_select s in
  let s' := set_ms_select (mk_select (options sm) v) s in
  if opt_eqb (value sm) v then Returned s' else ms_chosen s'.

Definition update_ms_list (s : State) : outcome :=
  match list_possible_ms_dirs env "." with
  | Raise e => Raised e s
  | Ok dirs =>
      let s1 := set_ms_select (mk_select dirs (value (ms_select s))) s in
      (s2 <~ assign_ms None s1 ;;
       let s3 := set_vis_colinfo [] (set_axis_opts [] s2) in
       let s4 := set_select_x (mk_select [] (value (select_x s3))) s3 in
       let s5 := set_select_y (mk_select [] (value (select_y s4))) s4 in
       let s6 := set_select_group
                   (mk_select ["None"] (value (select_group s5))) s5 in
       let sc := select_corr s6 in
       let s7 := set_select_corr (mk_multi [] (m_value sc) (visible sc)) s6 in
       let s8 := set_export_button_disabled true
                   (set_plot_button_disabled true s7) in
       let s9 := set_status_div "" s8 in
       Returned (set_outfig (mk_figure "Scribble Plot" empty_render) s9))%cb
  end.

Definition no_ms_msg : string := "No Measurement Set selected!".
Definition no_data_msg : string :=
  "No data to plot (possible all flagged/filtered?)".

Definition run_plot (s : State) : outcome :=
  if negb (truthy (selected_ms s)) then Returned (set_status_div no_ms_msg s)
  else
  match selected_ms s with
  | None => Returned (set_status_div no_ms_msg s)
  | Some ms_path =>
      let groupcol := group_column (select_group s) in
      let sc := select_corr s in
      match corr_index sc with
      | Raise e => Raised e s
      | Ok corr_idx =>
          match value (select_x s), value (select_y s) with
          | Some xcol, Some ycol =>
              let usecols :=
                use_columns xcol ycol groupcol (flag_col s) VIS_COLUMNS in
              match run_io (load_ms_data env ms_path usecols corr_idx
                              (flag_col s)) s with
              | (Raise e, s1) => Raised e s1
              | (Ok df, s1) =>
                  if df_empty df then Returned (set_status_div no_data_msg s1)
                  else
                    match shade_fire (shade df xcol ycol) with
                    | Raise e => Raised e s1
                    | Ok img =>
                        match df_col df xcol, df_col df ycol with
                        | Ok dx, Ok dy =>
                            let data :=
                              mk_render [img]
                                [col_min dx] [col_min dy]
                                [scalar_sub (col_max dx) (col_min dx)]
                                [scalar_sub (col_max dy) (col_min dy)] in
                            let s2 :=
                              set_outfig (mk_figure (title (outfig s1)) data)
                                s1 in
                            let s3 :=
                              set_outfig
                                (mk_figure (plot_title xcol ycol sc) data)
                                s2 in
                            Returned (set_status_div (plotted_msg df) s3)
                        | _, _ => Raised KeyError s1
                        end
                    end
              end
          | _, _ =>
              (* [usecols] holds None: the table is opened and
                 [t.getcol(None)] raises *)
              match run_io (table env ms_path) s with
              | (Raise e, s1) => Raised e s1
              | (Ok _, s1) => Raised TypeError s1
              end
          end
      end
  end.

(** [export_png]: bokeh writes the figure to the file. *)
Definition export_png (s : State) : outcome :=
  let s1 := set_exported (exported s ++ [("scribble_export.png", outfig s)]) s in
  Returned (set_status_div "Plot exported to scribble_export.png" s1).

Definition doc_title : string := "scribble: Measurement Set Plotter".

(** [bokeh_app(doc)]: the widgets as created (lines 85-103), the
    registration of the callbacks (lines 202-207), then [update_ms_list()]
    (line 209).  [ms_chosen] has the three parameters [on_change] asks for;
    the two [lambda *args: update_corr_visibility()] of lines 204-205 have
    no positional parameter, so the registration at line 204 raises
    ValueError: [update_ms_list()] is not called and the document gets no
    root.  The callbacks above are what the widgets would run. *)
Definition bokeh_app : outcome :=
  let mk dirs :=
    mk_state None (mk_select dirs None) [] [] None None
      (mk_select [] None) (mk_select [] None)
      (mk_select ["None"] (Some "None")) (mk_multi [] [] false)
      true true "" (mk_figure "Scribble Plot" empty_render) [] [] in
  match list_possible_ms_dirs env "." with
  | Raise e => Raised e (mk [])
  | Ok dirs =>
      match (_ <- on_change 3 ;;   (* ms_select, ms_chosen *)
             _ <- on_change 0 ;;   (* select_x, lambda *args *)
             on_change 0)%res      (* select_y, lambda *args *)
      with
      | Raise e => Raised e (mk dirs)
      | Ok _ => update_ms_list (mk dirs)
      end
  end.

(** [app_wrapper] inside [plot_gui(ms_path)]: the dict it builds is a local
    of [app_wrapper]. *)
Definition app_wrapper (ms_path : option string) : outcome :=
  if truthy ms_path then
    let selected_ms' := ms_path in
    bokeh_app
  else bokeh_app.

(** [plot_gui(ms_path)]: the application the server runs for a session. *)
Definition plot_gui (ms_path : option string) : outcome :=
  app_wrapper ms_path.

(** What the user does in the browser. *)
Inductive event : Type :=
| ClickRefresh
| PickMs (v : option string)
| PickX (v : option string)
| PickY (v : option string)
| PickGroup (v : option string)
| PickCorr (l : list string)
| ClickPlot
| ClickExport.

(** One event: the widget property the browser sends is assigned, and the
    callback registered for it runs.  A disabled button sends no click. *)
Definition step (s : State) (ev : event) : outcome :=
  match ev with
  | ClickRefresh => update_ms_list s
  | PickMs v => assign_ms v s
  | PickX v => assign_x v s
  | PickY v => assign_y v s
  | PickGroup v =>
      Returned (set_select_group (mk_select (options (select_group s)) v) s)
  | PickCorr l =>
      let sc := select_corr s in
      Returned (set_select_corr (mk_multi (m_options sc) l (visible sc)) s)
  | ClickPlot => if plot_button_disabled s then Returned s else run_plot s
  | ClickExport =>
      if export_button_disabled s then Returned s else export_png s
  end.

(** A session: the server logs an exception of a callback and goes on. *)
Fixpoint run (s : State) (evs : list event) : State :=
  match evs with
  | [] => s
  | ev :: rest => run (state_of (step s ev)) rest
  end.

End Callbacks.

End Scribble.

(** ** The packaged build ([build/lib/scribble/plot_gui.py])

    [load_ms_columns], [load_ms_data] and [get_corr_labels] are the same
    functions as in the current version.  The document starts with a text
    input only; [on_load] builds the plot controls. *)

Module Build.

Section BuildApp.

Variable V : Type.
Variable Image : Type.
Variable Scalar : Type.
Variable shade : DataFrame V -> string -> string -> Image.
Variable col_min : series V -> Scalar.
Variable col_max : series V -> Scalar.
Variable scalar_sub : Scalar -> Scalar -> Scalar.
(** [str(e)] in the message of [run_plot]. *)
Variable exn_text : exn -> string.
Variable env : Env V.

(** The widgets and closure variables one call of [on_load] creates. *)
Record Controls : Type := mk_controls {
  path : string;
  flag_col : option string;
  vis_columns_avail : list string;
  select_x : Select;
  select_y : Select;
  select_group : Select;
  select_corr : MultiSelect;
  export_button_disabled : bool;
  plot_status : string;
  outfig : Figure Image Scalar
}.

Definition set_select_corr (v : MultiSelect) (c : Controls) : Controls :=
  mk_controls (path c) (flag_col c) (vis_columns_avail c) (select_x c)
    (select_y c) (select_group c) v (export_button_disabled c)
    (plot_status c) (outfig c).

Definition set_export_button_disabled (v : bool) (c : Controls) : Controls :=
  mk_controls (path c) (flag_col c) (vis_columns_avail c) (select_x c)
    (select_y c) (select_group c) (select_corr c) v (plot_status c) (outfig c).

Definition set_plot_status (v : string) (c : Controls) : Controls :=
  mk_controls (path c) (flag_col c) (vis_columns_avail c) (select_x c)
    (select_y c) (select_group c) (select_corr c) (export_button_disabled c)
    v (outfig c).

Definition set_outfig (v : Figure Image Scalar) (c : Controls) : Controls :=
  mk_controls (path c) (flag_col c) (vis_columns_avail c) (select_x c)
    (select_y c) (select_group c) (select_corr c) (export_button_disabled c)
    (plot_status c) v.

(** The document: the text input, the status line, the children of
    [plot_layout]; the trace of [table(...)] calls and the files written. *)
Record State : Type := mk_state {
  ms_path_input : string;
  status_div : string;
  plot_layout : list Controls;
  trace : list string;
  exported : list (string * Figure Image Scalar)
}.

Inductive outcome : Type :=
| Returned (s : State)
| Raised (e : exn) (s : State).

Definition in_opt (v : option string) (l : list string) : bool :=
  match v with
  | Some x => str_in x l
  | None => false
  end.

(** [update_corr_visibility] of one set of controls; it returns the
    exception raised, if any, the controls and the extended trace. *)
Definition update_corr_visibility (c : Controls) (tr : list string)
  : option exn * Controls * list string :=
  let inx := in_opt (value (select_x c)) (vis_columns_avail c) in
  let iny := in_opt (value (select_y c)) (vis_columns_avail c) in
  let any_vis := inx || iny in
  let sc := select_corr c in
  let c1 := set_select_corr (mk_multi (m_options sc) (m_value sc) any_vis) c in
  if any_vis then
    match (if inx then value (select_x c) else value (select_y c)) with
    | Some viscol =>
        match get_corr_labels env (path c) viscol tr with
        | (Raise e, tr') => (Some e, c1, tr')
        | (Ok corr_labels, tr') =>
            let c2 :=
              set_select_corr (mk_multi corr_labels (m_value sc) any_vis) c1 in
            if is_nil (m_value sc) || negb (subset_of (m_value sc) corr_labels)
            then match corr_labels with
                 | l0 :: _ =>
                     let c3 := set_select_corr
                                 (mk_multi corr_labels [l0] any_vis) c2 in
                     (None, c3, tr')
                 | [] => (Some IndexError, c2, tr')
                 end
            else (None, c2, tr')
        end
    | None => (Some TypeError, c1, tr)
    end
  else
    let c2 := set_select_corr (mk_multi [] [] any_vis) c1 in
    (None, c2, tr).

Definition not_valid_msg : string :=
  "<span style='color:red;'>Not a valid MS directory path!</span>".

Definition on_load (s : State) : outcome :=
  let p := strip (ms_path_input s) in
  if String.eqb p "" || negb (isdir env p)
     || negb (path_exists env (path_join p "TABLES"))
  then Returned (mk_state (ms_path_input s) not_valid_msg []
                   (trace s) (exported s))
  else
    let loaded :=
      ("<b style='color:green;'>Loaded: " ++ abspath env p ++ "</b>")%string in
    match load_ms_columns env p (trace s) with
    | (Raise e, tr) =>
        Raised e (mk_state (ms_path_input s) loaded (plot_layout s) tr
                    (exported s))
    | (Ok (cols, _), tr) =>
        let s1 := mk_state (ms_path_input s) loaded (plot_layout s) tr
                    (exported s) in
        let axis_opts := axis_options cols in
        let fc := if str_in "FLAG" cols then Some "FLAG" else None in
        let avail := filter (fun c => str_in c cols) VIS_COLUMNS in
        match nth_error axis_opts 0, nth_error axis_opts 1 with
        | Some a0, Some a1 =>
            let c0 :=
              mk_controls p fc avail
                (mk_select axis_opts (Some a0)) (mk_select axis_opts (Some a1))
                (mk_select ("None" :: axis_opts) (Some "None"))
                (mk_multi [] [] false) true ""
                (mk_figure "Scribble Plot" (empty_render Image Scalar)) in
            (* lines 131-132: [update_corr_visibility], declared with
               [*args], has no positional parameter either *)
            match (_ <- on_change 0 ;; on_change 0)%res with
            | Raise e => Raised e s1
            | Ok _ =>
                match update_corr_visibility c0 tr with
                | (Some e, _, tr') =>
                    Raised e (mk_state (ms_path_input s) loaded (plot_layout s)
                                tr' (exported s))
                | (None, c1, tr') =>
                    Returned (mk_state (ms_path_input s) loaded [c1] tr'
                                (exported s))
                end
            end
        | _, _ => Raised IndexError s1
        end
    end.

Definition load_error_msg (e : exn) : string :=
  ("<span style='color:red;'>Error loading MS data: " ++ exn_text e
   ++ "</span>")%string.
Definition no_data_msg : string :=
  "<span style='color:red;'>No data to plot (all flagged?)</span>".

(** [run_plot] of one set of controls. *)
Definition run_plot (c : Controls) (tr : list string)
  : option exn * Controls * list string :=
  let groupcol := group_column (select_group c) in
  let sc := select_corr c in
  match corr_index sc with
  | Raise e => (Some e, c, tr)
  | Ok corr_idx =>
      match value (select_x c), value (select_y c) with
      | Some xcol, Some ycol =>
          let usecols :=
            use_columns xcol ycol groupcol (flag_col c)
              (vis_columns_avail c) in
          match load_ms_data env (path c) usecols corr_idx (flag_col c) tr with
          | (Raise e, tr') => (None, set_plot_status (load_error_msg e) c, tr')
          | (Ok df, tr') =>
              if df_empty df then (None, set_plot_status no_data_msg c, tr')
              else
                (* lines 157-159 are outside the [try] *)
                match shade_fire (shade df xcol ycol) with
                | Raise e => (Some e, c, tr')
                | Ok img =>
                    match df_col df xcol, df_col df ycol with
                    | Ok dx, Ok dy =>
                        let data :=
                          mk_render [img]
                            [col_min dx] [col_min dy]
                            [scalar_sub (col_max dx) (col_min dx)]
                            [scalar_sub (col_max dy) (col_min dy)] in
                        let c1 :=
                          set_outfig (mk_figure (plot_title xcol ycol sc) data)
                            c in
                        let c2 := set_plot_status (plotted_msg df) c1 in
                        (None, set_export_button_disabled false c2, tr')
                    | _, _ => (Some KeyError, c, tr')
                    end
                end
          end
      | _, _ =>
          (* [usecols] holds None: [t.getcol(None)] raises inside the [try] *)
          match table env (path c) tr with
          | (Raise e, tr') => (None, set_plot_status (load_error_msg e) c, tr')
          | (Ok _, tr') =>
              (None, set_plot_status (load_error_msg TypeError) c, tr')
          end
      end
  end.

(** [export_png] of one set of controls: the file written and the
    controls. *)
Definition export_png (c : Controls)
  : (string * Figure Image Scalar) * Controls :=
  (("scribble_export.png", outfig c),
   set_plot_status "Plot exported to scribble_export.png" c).

(** The Plot and Export buttons of the controls on display. *)
Definition click_plot (s : State) : outcome :=
  match plot_layout s with
  | [c] =>
      match run_plot c (trace s) with
      | (None, c', tr) =>
          Returned (mk_state (ms_path_input s) (status_div s) [c'] tr
                      (exported s))
      | (Some e, c', tr) =>
          Raised e (mk_state (ms_path_input s) (status_div s) [c'] tr
                      (exported s))
      end
  | _ => Returned s
  end.

Definition click_export (s : State) : outcome :=
  match plot_layout s with
  | [c] =>
      if export_button_disabled c then Returned s
      else let (f, c') := export_png c in
           Returned (mk_state (ms_path_input s) (status_div s) [c'] (trace s)
                       (exported s ++ [f]))
  | _ => Returned s
  end.

(** [bokeh_app(doc)]: an empty input, no status, no controls. *)
Definition bokeh_app : State := mk_state "" "" [] [] [].

(** A change of the X or Y selector of the controls on display: the value
    is assigned and [update_corr_visibility] runs when it changed. *)
Definition pick_axis (is_x : bool) (v : option string) (s : State)
  : outcome :=
  match plot_layout s with
  | [c] =>
      let sel := if is_x then select_x c else select_y c in
      let sel' := mk_select (options sel) v in
      let c' :=
        if is_x
        then mk_controls (path c) (flag_col c) (vis_columns_avail c) sel'
               (select_y c) (select_group c) (select_corr c)
               (export_button_disabled c) (plot_status c) (outfig c)
        else mk_controls (path c) (flag_col c) (vis_columns_avail c)
               (select_x c) sel' (select_group c) (select_corr c)
               (export_button_disabled c) (plot_status c) (outfig c) in
      if opt_eqb (value sel) v
      then Returned (mk_state (ms_path_input s) (status_div s) [c'] (trace s)
                       (exported s))
      else
        match update_corr_visibility c' (trace s) with
        | (None, c'', tr) =>
            Returned (mk_state (ms_path_input s) (status_div s) [c''] tr
                        (exported s))
        | (Some e, c'', tr) =>
            Raised e (mk_state (ms_path_input s) (status_div s) [c''] tr
                        (exported s))
        end
  | _ => Returned s
  end.

(** A change of the group or correlation selector: no callback. *)
Definition pick_other (f : Controls -> Controls) (s : State) : outcome :=
  match plot_layout s with
  | [c] =>
      Returned (mk_state (ms_path_input s) (status_div s) [f c] (trace s)
                  (exported s))
  | _ => Returned s
  end.

(** What the user does in the browser: type in the path input, click Load,
    and use the controls on display, if any. *)
Inductive event : Type :=
| TypePath (v : string)
| ClickLoad
| PickX (v : option string)
| PickY (v : option string)
| PickGroup (v : option string)
| PickCorr (l : list string)
| ClickPlot
| ClickExport.

Definition step (s : State) (ev : event) : outcome :=
  match ev with
  | TypePath v =>
      Returned (mk_state v (status_div s) (plot_layout s) (trace s)
                  (exported s))
  | ClickLoad => on_load s
  | PickX v => pick_axis true v s
  | PickY v => pick_axis false v s
  | PickGroup v =>
      pick_other
        (fun c =>
           mk_controls (path c) (flag_col c) (vis_columns_avail c)
             (select_x c) (select_y c)
             (mk_select (options (select_group c)) v) (select_corr c)
             (export_button_disabled c) (plot_status c) (outfig c)) s
  | PickCorr l =>
      pick_other
        (fun c =>
           let sc := select_corr c in
           set_select_corr (mk_multi (m_options sc) l (visible sc)) c) s
  | ClickPlot => click_plot s
  | ClickExport => click_export s
  end.

Definition state_of (o : outcome) : State :=
  match o with
  | Returned s => s
  | Raised _ s => s
  end.

(** A session: the server logs an exception of a callback and goes on. *)
Fixpoint run (s : State) (evs : list event) : State :=
  match evs with
  | [] => s
  | ev :: rest => run (state_of (step s ev)) rest
  end.

End BuildApp.

End Build.

(** ** A small Measurement Set to run the model on

    Two rows, two channels, two correlations (RR and LL); samples are
    integers standing for the visibilities.  The second correlation of the
    first row and the first correlation of channel 1 of the second row are
    flagged. *)

Module Demo.

Definition time_col : col_entry Z :=
  mk_col None (ValCol (mk_ndarray [2] [100; 200]%Z)).

Definition antenna_col : col_entry Z :=
  mk_col None (IntCol Z (mk_ndarray [2] [0; 1]%Z)).

Definition data_col : col_entry Z :=
  mk_col (Some [2; 2])
    (ValCol (mk_ndarray [2; 2; 2] [1; 2; 3; 4; 5; 6; 7; 8]%Z)).

Definition flag_col : col_entry Z :=
  mk_col (Some [2; 2])
    (BoolCol Z (mk_ndarray [2; 2; 2]
                  [false; true; false; true; false; false; true; false])).

Definition main_table : Table Z :=
  [("TIME", time_col); ("ANTENNA1", antenna_col);
   ("DATA", data_col); ("FLAG", flag_col)].

Definition pol_table : Table Z :=
  [("CORR_TYPE", mk_col (Some [2]) (IntCol Z (mk_ndarray [1; 2] [5; 8]%Z)))].

(** A table with no row, and one whose samples are all flagged. *)
Definition empty_table : Table Z :=
  [("TIME", mk_col None (ValCol (mk_ndarray [0] [])));
   ("ANTENNA1", mk_col None (IntCol Z (mk_ndarray [0] [])))].

Definition flagged_table : Table Z :=
  [("TIME", mk_col None (ValCol (mk_ndarray [2] [100; 200]%Z)));
   ("ANTENNA1", mk_col None (IntCol Z (mk_ndarray [2] [0; 1]%Z)));
   ("FLAG", mk_col None (BoolCol Z (mk_ndarray [2] [true; true])))].

Definition ms_dirs : list string := ["obs.ms"; "empty.ms"; "flagged.ms"].

Definition tables : list (string * Table Z) :=
  [("/w/obs.ms", main_table); ("/w/obs.ms/POLARIZATION", pol_table);
   ("/w/empty.ms", empty_table); ("/w/flagged.ms", flagged_table)].

(** The working directory [/w] with three Measurement Sets, a plain
    directory [notes] and a file [README]; paths are given relative to it
    or absolute. *)
Definition under_w (p : string) : string :=
  match p with
  | String "." (String "/" rest) => ("/w/" ++ rest)%string
  | String "/" _ => p
  | _ => ("/w/" ++ p)%string
  end.

Definition env : Env Z :=
  mk_env
    (fun p => if String.eqb (under_w p) "/w/."
              then Some ("README" :: "notes" :: ms_dirs) else None)
    (fun p => str_in (under_w p)
                ("/w/." :: "/w/notes" :: map (fun d => "/w/" ++ d)%string ms_dirs))
    (fun p => str_in (under_w p)
                ("/w/." :: "/w/notes" :: "/w/README"
                 :: map (fun d => "/w/" ++ d)%string ms_dirs
                 ++ map (fun d => "/w/" ++ d ++ "/TABLES")%string ms_dirs))
    under_w
    (dict_get tables).

(** The rendering pipeline, for running the model: the image is the frame
    it was drawn from with its two axes. *)
Definition Image : Type := DataFrame Z * string * string.
Definition shade (df : DataFrame Z) (x y : string) : Image := (df, x, y).
Definition col_min (s : series Z) : Z :=
  match s with
  | ValSeries l | IntSeries _ l => fold_right Z.min (hd 0%Z l) l
  | BoolSeries _ l => if forallb (fun b => b) l then 1%Z else 0%Z
  end.
Definition col_max (s : series Z) : Z :=
  match s with
  | ValSeries l | IntSeries _ l => fold_right Z.max (hd 0%Z l) l
  | BoolSeries _ l => if existsb (fun b => b) l then 1%Z else 0%Z
  end.

Definition exn_text (e : exn) : string :=
  match e with
  | IndexError => "IndexError"
  | ValueError => "ValueError"
  | TypeError => "TypeError"
  | KeyError => "KeyError"
  | RuntimeError => "RuntimeError"
  | OSError => "OSError"
  end.

(** The current version with the widgets as [bokeh_app] creates them, and
    after the selector has sent a directory: [ms_chosen] has stored the
    path and raised in [load_ms_columns]. *)
Definition start : State Image Z := state_of (bokeh_app Image Z env).

Definition chosen (d : string) : State Image Z :=
  run shade col_min col_max Z.sub env start [PickMs (Some d)].

(** The callbacks are also run on states with the axes set, as the
    selectors would send them. *)
Definition with_axes (x y : string) (s : State Image Z) : State Image Z :=
  set_select_y (mk_select (options (select_y s)) (Some y))
    (set_select_x (mk_select (options (select_x s)) (Some x)) s).

(** Both axes on DATA, DATA known as a visibility column, and the two
    correlations selected, LL first. *)
Definition two_corrs : State Image Z :=
  set_select_corr (mk_multi ["RR"; "LL"] ["LL"; "RR"] true)
    (set_vis_colinfo [("DATA", mk_colinfo [2; 2] 2 2)]
       (with_axes "DATA" "DATA" (chosen "obs.ms"))).

(** [obs.ms] was chosen and the selector now sends [ghost.ms], a directory
    that is gone: the state in which [ms_chosen] is called. *)
Definition ghost_picked : State Image Z :=
  set_ms_select
    (mk_select (options (ms_select (chosen "obs.ms"))) (Some "ghost.ms"))
    (with_axes "TIME" "ANTENNA1" (chosen "obs.ms")).

(** The selector sends [obs.ms] in the first state. *)
Definition obs_picked : State Image Z :=
  set_ms_select (mk_select (options (ms_select start)) (Some "obs.ms")) start.

(** X on TIME, Y on DATA. *)
Definition time_data : State Image Z :=
  with_axes "TIME" "DATA" (chosen "obs.ms").

(** The controls that lines 99-113 of [on_load] build for a path and the
    column names of its table. *)
Definition controls (p : string) (cols : list string)
  : Build.Controls Image Z :=
  let axis_opts := axis_options cols in
  Build.mk_controls p
    (if str_in "FLAG" cols then Some "FLAG" else None)
    (filter (fun c => str_in c cols) VIS_COLUMNS)
    (mk_select axis_opts (nth_error axis_opts 0))
    (mk_select axis_opts (nth_error axis_opts 1))
    (mk_select ("None" :: axis_opts) (Some "None"))
    (mk_multi [] [] false) true ""
    (mk_figure "Scribble Plot" (empty_render Image Z)).

(** A table without a FLAG column, and the file system with it as
    [/w/plain.ms]. *)
Definition plain_table : Table Z :=
  [("TIME", mk_col None (ValCol (mk_ndarray [2] [100; 200]%Z)));
   ("ANTENNA1", mk_col None (IntCol Z (mk_ndarray [2] [0; 1]%Z)))].

Definition plain_env : Env Z :=
  mk_env (listdir env) (isdir env) (path_exists env) (abspath env)
    (fun p => if String.eqb p "/w/plain.ms" then Some plain_table
              else open_table env p).

(** A table whose FLAG column holds integers, 0 and 1. *)
Definition int_flag_table : Table Z :=
  [("TIME", mk_col None (ValCol (mk_ndarray [3] [100; 200; 300]%Z)));
   ("FLAG", mk_col None (IntCol Z (mk_ndarray [3] [0; 1; 0]%Z)))].

End Demo.

(** ** Specification-side readings

    The samples whose flag is False, in their order: the reading of the
    mask the specification gives. *)
Definition unflagged {A} (flags : list bool) (l : list A) : list A :=
  map snd (filter (fun p => negb (fst p)) (combine flags l)).

Definition series_unflagged {V} (flags : list bool) (s : series V)
  : series V :=
  match s with
  | BoolSeries _ l => BoolSeries V (unflagged flags l)
  | IntSeries _ l => IntSeries V (unflagged flags l)
  | ValSeries l => ValSeries (unflagged flags l)
  end.

(** What the loop over [usecols] of [load_ms_data] leaves under key [c]. *)
Definition fetched {V} (t : Table V) (corr_idx : option nat) (c : string)
  : option (series V) :=
  match fetch t corr_idx c with
  | Ok s => Some s
  | Raise _ => None
  end.

(** [s[mask]] when the lengths agree. *)
Definition series_select {V} (mask : list bool) (s : series V) : series V :=
  match s with
  | BoolSeries _ l => BoolSeries V (select mask l)
  | IntSeries _ l => IntSeries V (select mask l)
  | ValSeries l => ValSeries (select mask l)
  end.

(** What integer flags select: flag [f] stands, once inverted, for the
    position [-f-1], the sample [f] places before the last. *)
Definition from_end {A} (flags : list Z) (l : list A) : list A :=
  flat_map (fun f => match nth_error (rev l) (Z.to_nat f) with
                     | Some x => [x]
                     | None => []
                     end) flags.

Definition series_from_end {V} (flags : list Z) (s : series V) : series V :=
  match s with
  | BoolSeries _ l => BoolSeries V (from_end flags l)
  | IntSeries _ l => IntSeries V (from_end flags l)
  | ValSeries l => ValSeries (from_end flags l)
  end.

(** A callback outcome with a function applied to its state. *)
Definition outcome_map {Image Scalar : Type}
  (f : State Image Scalar -> State Image Scalar) (o : outcome Image Scalar)
  : outcome Image Scalar :=
  match o with
  | Returned s => Returned (f s)
  | Raised e s => Raised e (f s)
  end.

(** The state with the correlation selector and the trace blanked: what
    [update_corr_visibility] may not touch. *)
Definition but_corr {Image Scalar : Type} (s : State Image Scalar)
  : State Image Scalar :=
  set_trace [] (set_select_corr (mk_multi [] [] false) s).

(** * Properties *)

Ltac split_matches :=
  repeat (match goal with
          | |- context [load_ms_data ?e ?p ?u ?c ?f ?t] =>
              destruct (load_ms_data e p u c f t) eqn:?
          | |- context [get_corr_labels ?e ?p ?v ?t] =>
              destruct (get_corr_labels e p v t) eqn:?
          | |- context [load_ms_columns ?e ?p ?t] =>
              destruct (load_ms_columns e p t) eqn:?
          | |- context [table ?e ?p ?t] => destruct (table e p t) eqn:?
          | |- context [match ?x with _ => _ end] => destruct x eqn:?
          end; simpl in *; try reflexivity; try congruence).

(** ** Dictionaries and masks *)

Lemma str_in_In (x : string) (l : list string) :
  str_in x l = true <-> In x l.
Proof.
  unfold str_in. rewrite existsb_exists. split.
  - intros [y [Hy He]]. apply String.eqb_eq in He. now subst.
  - intros H. exists x. split; [assumption | apply String.eqb_refl].
Qed.

Lemma str_in_not_In (x : string) (l : list string) :
  str_in x l = false <-> ~ In x l.
Proof.
  rewrite <- str_in_In. destruct (str_in x l); split; congruence.
Qed.

Lemma dict_get_set_same {A} (d : list (string * A)) k v :
  dict_get (dict_set d k v) k = Some v.
Proof.
  induction d as [| [k' v'] d IH]; simpl.
  - now rewrite String.eqb_refl.
  - destruct (String.eqb k k') eqn:E; simpl.
    + now rewrite String.eqb_refl.
    + now rewrite E.
Qed.

Lemma dict_get_set_other {A} (d : list (string * A)) k k' v :
  k' <> k -> dict_get (dict_set d k v) k' = dict_get d k'.
Proof.
  intros Hne. induction d as [| [k0 v0] d IH]; simpl.
  - apply String.eqb_neq in Hne. now rewrite Hne.
  - destruct (String.eqb k k0) eqn:E; simpl.
    + apply String.eqb_eq in E. subst k0.
      apply String.eqb_neq in Hne. now rewrite Hne.
    + destruct (String.eqb k' k0); [reflexivity | exact IH].
Qed.

Lemma dict_set_Forall {A} (P : string * A -> Prop) d k v :
  Forall P d -> P (k, v) -> Forall P (dict_set d k v).
Proof.
  intros Hd Hv. induction Hd as [| [k0 v0] d H0 Hd IH]; simpl.
  - now constructor.
  - destruct (String.eqb k k0); constructor; auto.
Qed.

Lemma dict_get_map {A B} (f : A -> B) (d : list (string * A)) k :
  dict_get (map (fun p => (fst p, f (snd p))) d) k
  = option_map f (dict_get d k).
Proof.
  induction d as [| [k0 v0] d IH]; simpl; [reflexivity |].
  destruct (String.eqb k k0); [reflexivity | exact IH].
Qed.

Lemma dict_get_In_keys {A} (d : list (string * A)) k :
  dict_get d k <> None <-> In k (map fst d).
Proof.
  induction d as [| [k0 v0] d IH]; simpl.
  - split; [congruence | tauto].
  - destruct (String.eqb k k0) eqn:E.
    + apply String.eqb_eq in E. subst. split; [auto | congruence].
    + apply String.eqb_neq in E. rewrite IH. split; [auto |].
      intros [H | H]; [congruence | assumption].
Qed.

Lemma select_negb_unflagged {A} (flags : list bool) (l : list A) :
  select (map negb flags) l = unflagged flags l.
Proof.
  unfold unflagged. revert l.
  induction flags as [| b flags IH]; intros [| x l]; simpl; try reflexivity.
  destruct b; simpl; now rewrite IH.
Qed.

Lemma select_length {A} (mask : list bool) (l : list A) :
  length mask = length l ->
  length (select mask l) = count_occ bool_dec mask true.
Proof.
  revert l. induction mask as [| b mask IH]; intros [| x l] H; simpl in *;
    try reflexivity; try discriminate.
  injection H as H. destruct b; simpl; now rewrite (IH l H).
Qed.

(** ** [load_ms_data] *)

Section LoadProps.

Variable V : Type.
Implicit Types (t : Table V) (s : series V) (df : DataFrame V).

Lemma fetch_all_spec t corr_idx (P : series V -> Prop) :
  forall usecols acc,
    (forall c, In c usecols ->
               exists s, fetch t corr_idx c = Ok s /\ P s) ->
    Forall (fun p => P (snd p)) acc ->
    exists arrs,
      fetch_all t corr_idx usecols acc = Ok arrs
      /\ Forall (fun p => P (snd p)) arrs
      /\ forall c, dict_get arrs c
                   = if str_in c usecols then fetched t corr_idx c
                     else dict_get acc c.
Proof.
  induction usecols as [| c0 rest IH]; intros acc Hall Hacc; simpl.
  - exists acc. repeat split; auto.
  - destruct (Hall c0 (or_introl eq_refl)) as [s0 [Hs0 HP0]].
    rewrite Hs0. simpl.
    destruct (IH (dict_set acc c0 s0)) as [arrs [Hrun [HF Hget]]].
    + intros c Hc. apply Hall. now right.
    + apply dict_set_Forall; assumption.
    + exists arrs. repeat split; try assumption.
      intros c. rewrite Hget.
      destruct (String.eqb c c0) eqn:E; simpl.
      * apply String.eqb_eq in E. subst c.
        destruct (str_in c0 rest); [reflexivity |].
        rewrite dict_get_set_same. unfold fetched. now rewrite Hs0.
      * apply String.eqb_neq in E.
        destruct (str_in c rest); [reflexivity |].
        now apply dict_get_set_other.
Qed.

Lemma series_index_ok mask s :
  series_len s = length mask ->
  series_index mask s = Ok (series_select mask s).
Proof.
  intros H. destruct s; simpl in *; unfold bool_index;
    rewrite <- H, Nat.eqb_refl; reflexivity.
Qed.

Lemma series_select_len mask s :
  series_len s = length mask ->
  series_len (series_select mask s) = count_occ bool_dec mask true.
Proof.
  intros H. destruct s; simpl in *; apply select_length; congruence.
Qed.

Lemma series_select_unflagged flags s :
  series_select (map negb flags) s = series_unflagged flags s.
Proof.
  destruct s; simpl; now rewrite select_negb_unflagged.
Qed.

Lemma mask_all_ok mask (arrs : list (string * series V)) :
  Forall (fun p => series_len (snd p) = length mask) arrs ->
  mask_all (BoolSeries V mask) arrs
  = Ok (map (fun p => (fst p, series_select mask (snd p))) arrs).
Proof.
  induction 1 as [| [k s] arrs Hs _ IH]; simpl; [reflexivity |].
  simpl in Hs. rewrite (series_index_ok mask s Hs). simpl.
  now rewrite IH.
Qed.

Lemma mk_DataFrame_ok (n : nat) (arrs : list (string * series V)) :
  Forall (fun p => series_len (snd p) = n) arrs ->
  mk_DataFrame arrs = Ok arrs.
Proof.
  intros H. destruct arrs as [| [k s] rest]; simpl; [reflexivity |].
  inversion H as [| ? ? Hs Hrest]; subst. simpl in *.
  replace (forallb _ rest) with true; [reflexivity |].
  symmetry. apply forallb_forall. intros p Hp.
  rewrite Forall_forall in Hrest. rewrite (Hrest p Hp).
  apply Nat.eqb_refl.
Qed.

(** A frame that was built has columns of one length. *)
Lemma mk_DataFrame_lengths (arrs : list (string * series V)) df :
  mk_DataFrame arrs = Ok df ->
  df = arrs /\ Forall (fun p => series_len (snd p) = df_len df) df.
Proof.
  destruct arrs as [| [k s] rest]; simpl.
  - intros H. injection H as <-. split; [reflexivity | constructor].
  - destruct (forallb _ rest) eqn:E; [| discriminate].
    intros H. injection H as <-. split; [reflexivity |].
    simpl. constructor; [reflexivity |].
    rewrite forallb_forall in E. apply Forall_forall.
    intros p Hp. now apply Nat.eqb_eq, E.
Qed.

Lemma flat_flags_colnames t corr_idx fc flags :
  flat_flags t corr_idx fc = Ok flags -> str_in fc (colnames t) = true.
Proof.
  unfold flat_flags, flags_flat, getcol. intros H.
  apply str_in_In, dict_get_In_keys.
  destruct (dict_get t fc); [congruence | discriminate].
Qed.

(** Boolean flags are inverted to the mask of the unflagged samples. *)
Lemma flat_flags_mask t corr_idx fc flags :
  flat_flags t corr_idx fc = Ok flags ->
  (flags' <- flags_flat t corr_idx fc ;; invert flags')%res
  = Ok (BoolSeries V (map negb flags)).
Proof.
  unfold flat_flags.
  destruct (flags_flat t corr_idx fc) as [[l | l | l] |]; cbn [rbind];
    try discriminate.
  intros H. injection H as <-. reflexivity.
Qed.

Lemma rbind_assoc {A B C} (r : result A) (f : A -> result B)
  (g : B -> result C) :
  (x <- r ;; y <- f x ;; g y)%res = (y <- (x <- r ;; f x) ;; g y)%res.
Proof.
  destruct r; reflexivity.
Qed.

(** C1: on a table with a boolean FLAG column, [load_ms_data] called with
    [flag_col = 'FLAG'] returns a frame that holds, under each requested
    column, exactly the samples whose flag is False, in their original
    order, and no other column -- provided the flattened flag array and
    every flattened data array have one length. *)
Theorem load_ms_data_keeps_unflagged :
  forall (env : Env V) ms_path t usecols corr_idx flags tr,
    open_table env ms_path = Some t ->
    flat_flags t corr_idx "FLAG" = Ok flags ->
    (forall c, In c usecols ->
               exists s, fetch t corr_idx c = Ok s
                         /\ series_len s = length flags) ->
    exists df,
      load_ms_data env ms_path usecols corr_idx (Some "FLAG") tr
      = (Ok df, tr ++ [ms_path])
      /\ (forall c, In c usecols ->
                    exists s, fetch t corr_idx c = Ok s
                              /\ dict_get df c
                                 = Some (series_unflagged flags s))
      /\ (forall c, ~ In c usecols -> dict_get df c = None).
Proof.
  intros env ms_path t usecols corr_idx flags tr Hopen Hflags Hcols.
  destruct (@fetch_all_spec t corr_idx
              (fun s => series_len s = length flags) usecols [] Hcols
              (Forall_nil _)) as [arrs [Hrun [Hlen Hget]]].
  set (df := map (fun p => (fst p, series_select (map negb flags) (snd p)))
               arrs).
  assert (Hmask : mask_all (BoolSeries V (map negb flags)) arrs = Ok df).
  { apply mask_all_ok. rewrite length_map. exact Hlen. }
  assert (Hdf : mk_DataFrame df = Ok df).
  { apply mk_DataFrame_ok with (n := count_occ bool_dec (map negb flags) true).
    unfold df. apply Forall_map. simpl.
    eapply Forall_impl; [| exact Hlen].
    intros p Hp. apply series_select_len. now rewrite length_map. }
  exists df. split; [| split].
  - unfold load_ms_data, io_bind, table, io_lift. rewrite Hopen.
    unfold load_from. rewrite Hrun. simpl.
    rewrite (flat_flags_colnames t corr_idx "FLAG" Hflags). simpl.
    rewrite rbind_assoc, (flat_flags_mask t corr_idx "FLAG" Hflags). simpl.
    rewrite Hmask. simpl. now rewrite Hdf.
  - intros c Hc. destruct (Hcols c Hc) as [s [Hs _]].
    exists s. split; [assumption |].
    unfold df. rewrite dict_get_map, Hget.
    apply str_in_In in Hc. rewrite Hc. unfold fetched. rewrite Hs. simpl.
    now rewrite series_select_unflagged.
  - intros c Hc. unfold df. rewrite dict_get_map, Hget.
    apply str_in_not_In in Hc. now rewrite Hc.
Qed.

End LoadProps.

(** The theorem at work on the demonstration table: DATA at correlation 0,
    three of four samples unflagged. *)
Lemma load_ms_data_keeps_unflagged_witness :
  exists df,
    load_ms_data Demo.env "/w/obs.ms" ["DATA"] (Some 0) (Some "FLAG") []
    = (Ok df, [] ++ ["/w/obs.ms"])
    /\ (forall c, In c ["DATA"] ->
          exists s, fetch Demo.main_table (Some 0) c = Ok s
                    /\ dict_get df c
                       = Some (series_unflagged [false; false; false; true] s))
    /\ (forall c, ~ In c ["DATA"] -> dict_get df c = None).
Proof.
  apply (@load_ms_data_keeps_unflagged Z Demo.env "/w/obs.ms" Demo.main_table
           ["DATA"] (Some 0) [false; false; false; true] []).
  - reflexivity.
  - reflexivity.
  - intros c [<- | []]. eexists. split; reflexivity.
Defined.

(** ** Correlation labels *)

Section LabelProps.

Variable V : Type.

Lemma io_try_ok {A} (m h : IO A) tr a tr' :
  m tr = (Ok a, tr') -> io_try m h tr = (Ok a, tr').
Proof. unfold io_try. now intros ->. Qed.

(** C3: when the POLARIZATION subtable opens and its CORR_TYPE column is a
    two-axis integer array with at least one row, [get_corr_labels] returns
    the label of each code of the first row, in the order of the table; the
    label of 5 is RR, of 6 RL, of 7 LR, of 8 LL, of 9 XX, of 10 XY, of 11 YX
    and of 12 YY. *)
Theorem get_corr_labels_maps_codes :
  forall (env : Env V) ms_path vis_col t d r n cs tr,
    open_table env (path_join ms_path "POLARIZATION") = Some t ->
    dict_get t "CORR_TYPE" = Some (mk_col d (IntCol V (mk_ndarray [r; n] cs))) ->
    0 < r ->
    get_corr_labels env ms_path vis_col tr
    = (Ok (map corr_label (firstn n cs)),
       tr ++ [path_join ms_path "POLARIZATION"])
    /\ corr_label 5 = "RR" /\ corr_label 6 = "RL"
    /\ corr_label 7 = "LR" /\ corr_label 8 = "LL"
    /\ corr_label 9 = "XX" /\ corr_label 10 = "XY"
    /\ corr_label 11 = "YX" /\ corr_label 12 = "YY".
Proof.
  intros env ms_path vis_col t d r n cs tr Hopen Hcol Hr.
  split; [| repeat split; reflexivity].
  unfold get_corr_labels. apply io_try_ok.
  unfold io_bind, table, io_lift, getcol. rewrite Hopen, Hcol. simpl.
  destruct r as [| r]; [lia | reflexivity].
Qed.

End LabelProps.

(** The demonstration set: codes 5 and 8 give RR and LL. *)
Lemma get_corr_labels_maps_codes_witness :
  get_corr_labels Demo.env "/w/obs.ms" "DATA" []
  = (Ok ["RR"; "LL"], ["/w/obs.ms/POLARIZATION"]).
Proof.
  apply (@get_corr_labels_maps_codes Z Demo.env "/w/obs.ms" "DATA"
           Demo.pol_table (Some [2]) 1 2 [5; 8]%Z []).
  - reflexivity.
  - reflexivity.
  - lia.
Defined.

(** A code outside 5..12 is shown as its number. *)
Example corr_label_other : corr_label 1 = "1" /\ corr_label (-3) = "-3".
Proof. split; reflexivity. Qed.

(** ** Measurement Set candidates *)

Section CandidateProps.

Variable V : Type.
Variable Image : Type.
Variable Scalar : Type.

(** C10: [list_possible_ms_dirs] returns exactly the entries of the search
    path that are directories with an entry named TABLES, and the loader of
    the build rejects a path that is not one: the status line says so and
    the plot layout is emptied, without opening a table. *)
Theorem ms_candidates_have_TABLES :
  forall (env : Env V),
    (forall path entries,
        listdir env path = Some entries ->
        exists dirs,
          list_possible_ms_dirs env path = Ok dirs
          /\ forall f,
               In f dirs <->
               In f entries
               /\ isdir env (path_join path f) = true
               /\ path_exists env (path_join (path_join path f) "TABLES")
                  = true)
    /\ (forall s : Build.State Image Scalar,
           let p := strip (Build.ms_path_input s) in
           isdir env p = false
           \/ path_exists env (path_join p "TABLES") = false ->
           Build.on_load env s
           = Build.Returned
               (Build.mk_state (Build.ms_path_input s) Build.not_valid_msg []
                  (Build.trace s) (Build.exported s))).
Proof.
  intros env. split.
  - intros path entries Hls. unfold list_possible_ms_dirs. rewrite Hls.
    eexists. split; [reflexivity |].
    intros f. rewrite filter_In. unfold looks_like_ms.
    rewrite andb_true_iff. tauto.
  - intros s p Hbad. unfold Build.on_load. fold p.
    replace (String.eqb p "" || negb (isdir env p)
             || negb (path_exists env (path_join p "TABLES"))) with true;
      [reflexivity |].
    symmetry. destruct Hbad as [H | H]; rewrite H; simpl;
      repeat rewrite orb_true_r; reflexivity.
Qed.

End CandidateProps.

(** In the demonstration directory the three sets are offered, [notes] and
    [README] are not, and the build refuses [/w/notes]. *)
Lemma ms_candidates_have_TABLES_witness :
  (exists dirs,
      list_possible_ms_dirs Demo.env "." = Ok dirs
      /\ forall f,
           In f dirs <->
           In f ("README" :: "notes" :: Demo.ms_dirs)
           /\ isdir Demo.env (path_join "." f) = true
           /\ path_exists Demo.env (path_join (path_join "." f) "TABLES")
              = true)
  /\ Build.on_load Demo.env
       (Build.mk_state (Image := Demo.Image) (Scalar := Z) "/w/notes" "" [] [] [])
     = Build.Returned
         (Build.mk_state "/w/notes" Build.not_valid_msg [] [] []).
Proof.
  destruct (@ms_candidates_have_TABLES Z Demo.Image Z Demo.env) as [Hl Hb].
  split.
  - apply Hl. reflexivity.
  - apply (Hb (Build.mk_state "/w/notes" "" [] [] [])). right. reflexivity.
Defined.

(** ** Export and start-up *)

Section AppProps.

Variable V : Type.
Variable Image : Type.
Variable Scalar : Type.
Variable shade : DataFrame V -> string -> string -> Image.
Variable col_min : series V -> Scalar.
Variable col_max : series V -> Scalar.
Variable scalar_sub : Scalar -> Scalar -> Scalar.
Variable exn_text : exn -> string.
Variable env : Env V.

Local Abbreviation plot := (run_plot shade col_min col_max scalar_sub env).
Local Abbreviation step := (step shade col_min col_max scalar_sub env).
Local Abbreviation run := (run shade col_min col_max scalar_sub env).
Local Abbreviation build_plot :=
  (Build.run_plot shade col_min col_max scalar_sub exn_text env).

(** C7: Export writes the figure as it is rendered to the file
    [scribble_export.png], reports the export in the status text, and
    leaves the figure (title and image) as it was; so in the current
    version, so in the build. *)
Theorem export_png_writes_figure :
  (forall s : State Image Scalar,
      exists s',
        export_png s = Returned s'
        /\ exported s' = exported s ++ [("scribble_export.png", outfig s)]
        /\ status_div s' = "Plot exported to scribble_export.png"
        /\ outfig s' = outfig s)
  /\ (forall c : Build.Controls Image Scalar,
         fst (Build.export_png c) = ("scribble_export.png", Build.outfig c)
         /\ Build.plot_status (snd (Build.export_png c))
            = "Plot exported to scribble_export.png"
         /\ Build.outfig (snd (Build.export_png c)) = Build.outfig c).
Proof.
  split.
  - intros s. eexists. split; [reflexivity |]. repeat split.
  - intros c. repeat split.
Qed.

(** The widgets right after [bokeh_app]: nothing is selected. *)
Lemma bokeh_app_nothing_selected :
  selected_ms (state_of (bokeh_app Image Scalar env)) = None
  /\ value (ms_select (state_of (bokeh_app Image Scalar env))) = None.
Proof.
  unfold bokeh_app, update_ms_list.
  destruct (list_possible_ms_dirs env ".") as [dirs | e]; simpl; auto.
Qed.

(** C8: the [ms_path] argument is ignored: for every path, [plot_gui]
    serves the application that [plot_gui(None)] serves -- the same first
    state, in which no Measurement Set is selected, and the same state
    after any sequence of user events. *)
Theorem plot_gui_ignores_ms_path :
  forall p : option string,
    plot_gui Image Scalar env p = plot_gui Image Scalar env None
    /\ selected_ms (state_of (plot_gui Image Scalar env p)) = None
    /\ value (ms_select (state_of (plot_gui Image Scalar env p))) = None
    /\ forall evs,
         run (state_of (plot_gui Image Scalar env p)) evs
         = run (state_of (plot_gui Image Scalar env None)) evs.
Proof.
  intros p.
  assert (H : plot_gui Image Scalar env p = plot_gui Image Scalar env None).
  { unfold plot_gui, app_wrapper. destruct (truthy p); reflexivity. }
  rewrite H. repeat split; try apply bokeh_app_nothing_selected.
Qed.

(** ** Input validation *)

Lemma truthy_Some (p : string) : p <> "" -> truthy (Some p) = true.
Proof.
  intros H. simpl. apply String.eqb_neq in H. now rewrite H.
Qed.


(** ** Plotting *)

(** C4: when the frame that was loaded is empty, Plot sets the status to
    the "No data to plot" message and returns: the figure -- its image and
    its title -- and the files written stay as they were; so in the current
    version, so in the build. *)
Theorem empty_frame_reports_no_data :
  (forall (s : State Image Scalar) ms_path xcol ycol ci df tr',
      selected_ms s = Some ms_path -> ms_path <> "" ->
      value (select_x s) = Some xcol ->
      value (select_y s) = Some ycol ->
      corr_index (select_corr s) = Ok ci ->
      load_ms_data env ms_path
        (use_columns xcol ycol (group_column (select_group s)) (flag_col s)
           VIS_COLUMNS)
        ci (flag_col s) (trace s) = (Ok df, tr') ->
      df_empty df = true ->
      exists s',
        plot s = Returned s'
        /\ status_div s' = "No data to plot (possible all flagged/filtered?)"
        /\ outfig s' = outfig s
        /\ exported s' = exported s)
  /\ (forall (c : Build.Controls Image Scalar) tr xcol ycol ci df tr',
         value (Build.select_x c) = Some xcol ->
         value (Build.select_y c) = Some ycol ->
         corr_index (Build.select_corr c) = Ok ci ->
         load_ms_data env (Build.path c)
           (use_columns xcol ycol (group_column (Build.select_group c))
              (Build.flag_col c) (Build.vis_columns_avail c))
           ci (Build.flag_col c) tr = (Ok df, tr') ->
         df_empty df = true ->
         exists c',
           build_plot c tr = (None, c', tr')
           /\ Build.plot_status c'
              = "<span style='color:red;'>No data to plot (all flagged?)</span>"
           /\ Build.outfig c' = Build.outfig c
           /\ Build.export_button_disabled c'
              = Build.export_button_disabled c).
Proof.
  split.
  - intros s ms_path xcol ycol ci df tr' Hsel Hne Hx Hy Hci Hload Hempty.
    assert (Hrun : plot s
                   = Returned (set_status_div no_data_msg (set_trace tr' s))).
    { unfold run_plot. rewrite Hsel, (truthy_Some Hne). simpl.
      rewrite Hci, Hx, Hy. unfold run_io. rewrite Hload, Hempty.
      reflexivity. }
    eexists. split; [exact Hrun | repeat split].
  - intros c tr xcol ycol ci df tr' Hx Hy Hci Hload Hempty.
    assert (Hrun : build_plot c tr
                   = (None, Build.set_plot_status Build.no_data_msg c, tr')).
    { unfold Build.run_plot. rewrite Hci, Hx, Hy, Hload, Hempty.
      reflexivity. }
    eexists. split; [exact Hrun | repeat split].
Qed.

End AppProps.


(** The set without rows in the current version, with the axes on TIME and
    ANTENNA1; the set whose samples are all flagged in the build, with the
    controls for its columns. *)
Lemma empty_frame_reports_no_data_witness :
  (exists s',
      run_plot Demo.shade Demo.col_min Demo.col_max Z.sub Demo.env
        (Demo.with_axes "TIME" "ANTENNA1" (Demo.chosen "empty.ms"))
      = Returned s'
      /\ status_div s' = "No data to plot (possible all flagged/filtered?)"
      /\ outfig s'
         = outfig (Demo.with_axes "TIME" "ANTENNA1" (Demo.chosen "empty.ms"))
      /\ exported s'
         = exported
             (Demo.with_axes "TIME" "ANTENNA1" (Demo.chosen "empty.ms")))
  /\ (exists c',
         Build.run_plot Demo.shade Demo.col_min Demo.col_max Z.sub
           Demo.exn_text Demo.env
           (Demo.controls "/w/flagged.ms" ["TIME"; "ANTENNA1"; "FLAG"])
           ["/w/flagged.ms"]
         = (None, c', ["/w/flagged.ms"; "/w/flagged.ms"])
         /\ Build.plot_status c'
            = "<span style='color:red;'>No data to plot (all flagged?)</span>"
         /\ Build.outfig c'
            = Build.outfig
                (Demo.controls "/w/flagged.ms" ["TIME"; "ANTENNA1"; "FLAG"])
         /\ Build.export_button_disabled c'
            = Build.export_button_disabled
                (Demo.controls "/w/flagged.ms" ["TIME"; "ANTENNA1"; "FLAG"])).
Proof.
  destruct (@empty_frame_reports_no_data Z Demo.Image Z Demo.shade
              Demo.col_min Demo.col_max Z.sub Demo.exn_text Demo.env)
    as [Hcur Hbuild].
  split.
  - apply (Hcur (Demo.with_axes "TIME" "ANTENNA1" (Demo.chosen "empty.ms"))
             "/w/empty.ms" "TIME" "ANTENNA1" None
             [("TIME", ValSeries []); ("ANTENNA1", IntSeries Z [])]
             ["/w/empty.ms"; "/w/empty.ms"]);
      try reflexivity.
    discriminate.
  - apply (Hbuild (Demo.controls "/w/flagged.ms" ["TIME"; "ANTENNA1"; "FLAG"])
             ["/w/flagged.ms"]
             "TIME" "ANTENNA1" None
             [("TIME", ValSeries []); ("ANTENNA1", IntSeries Z []);
              ("FLAG", BoolSeries Z [])]);
      reflexivity.
Defined.

(** ** The correlation selection *)

Section CorrProps.

Variable V : Type.
Variable Image : Type.
Variable Scalar : Type.
Variable shade : DataFrame V -> string -> string -> Image.
Variable col_min : series V -> Scalar.
Variable col_max : series V -> Scalar.
Variable scalar_sub : Scalar -> Scalar -> Scalar.
Variable exn_text : exn -> string.
Variable env : Env V.

Local Abbreviation plot := (run_plot shade col_min col_max scalar_sub env).
Local Abbreviation build_plot :=
  (Build.run_plot shade col_min col_max scalar_sub exn_text env).

(** C9: with several correlations selected, only the first one counts.
    The correlation index is the position of the first selected label and
    the title shows that label; Plot does what it does when the first label
    alone is selected, the selection widget apart.  So in the current
    version, so in the build. *)
Theorem only_first_correlation_is_used :
  (forall (s : State Image Scalar) u0 rest,
      m_value (select_corr s) = u0 :: rest ->
      let sc := select_corr s in
      let first := mk_multi (m_options sc) [u0] (visible sc) in
      (visible sc = true ->
       corr_index sc = (i <- index_of u0 (m_options sc) ;; Ok (Some i))%res)
      /\ corr_index sc = corr_index first
      /\ (forall x y, plot_title x y sc = plot_title x y first)
      /\ plot s
         = outcome_map (set_select_corr sc)
             (plot (set_select_corr first s)))
  /\ (forall (c : Build.Controls Image Scalar) tr u0 rest,
         m_value (Build.select_corr c) = u0 :: rest ->
         let sc := Build.select_corr c in
         let first := mk_multi (m_options sc) [u0] (visible sc) in
         build_plot c tr
         = let '(e, c', tr') :=
             build_plot (Build.set_select_corr first c) tr in
           (e, Build.set_select_corr sc c', tr')).
Proof.
  split.
  - intros s u0 rest Hval sc first.
    assert (Hci : corr_index sc = corr_index first).
    { unfold corr_index, used_corr, first. simpl. unfold sc. rewrite Hval.
      destruct (visible (select_corr s)); reflexivity. }
    assert (Htitle : forall x y, plot_title x y sc = plot_title x y first).
    { intros x y. unfold plot_title, used_corr, first. simpl. unfold sc.
      rewrite Hval. destruct (visible (select_corr s)); reflexivity. }
    repeat split; try assumption.
    + intros Hvis. unfold corr_index, used_corr. unfold sc in *.
      rewrite Hvis, Hval. reflexivity.
    + unfold run_plot, run_io.
      change (select_corr (set_select_corr first s)) with first.
      fold sc. rewrite <- Hci.
      destruct s; simpl in *. subst sc. simpl in *.
      split_matches; rewrite Htitle; reflexivity.
  - intros c tr u0 rest Hval sc first.
    assert (Hci : corr_index sc = corr_index first).
    { unfold corr_index, used_corr, first. simpl. unfold sc. rewrite Hval.
      destruct (visible (Build.select_corr c)); reflexivity. }
    assert (Htitle : forall x y, plot_title x y sc = plot_title x y first).
    { intros x y. unfold plot_title, used_corr, first. simpl. unfold sc.
      rewrite Hval. destruct (visible (Build.select_corr c)); reflexivity. }
    unfold Build.run_plot.
    change (Build.select_corr (Build.set_select_corr first c)) with first.
    fold sc. rewrite <- Hci.
    destruct c; simpl in *. subst sc. simpl in *.
    split_matches; rewrite Htitle; reflexivity.
Qed.

End CorrProps.

(** LL and RR selected, LL first: Plot does what it does for LL alone, the
    index handed to [load_ms_data] is the position of LL and the title
    would name LL. *)
Lemma only_first_correlation_is_used_witness :
  run_plot Demo.shade Demo.col_min Demo.col_max Z.sub Demo.env Demo.two_corrs
  = outcome_map (set_select_corr (select_corr Demo.two_corrs))
      (run_plot Demo.shade Demo.col_min Demo.col_max Z.sub Demo.env
         (set_select_corr (mk_multi ["RR"; "LL"] ["LL"] true) Demo.two_corrs))
  /\ corr_index (select_corr Demo.two_corrs) = Ok (Some 1)
  /\ plot_title "DATA" "DATA" (select_corr Demo.two_corrs)
     = "DATA vs DATA (LL)".
Proof.
  destruct (@only_first_correlation_is_used Z Demo.Image Z Demo.shade
              Demo.col_min Demo.col_max Z.sub Demo.exn_text Demo.env)
    as [Hcur _].
  destruct (Hcur Demo.two_corrs "LL" ["RR"] eq_refl)
    as (Hidx & _ & Htitle & Hrun).
  split; [exact Hrun | split].
  - rewrite (Hidx eq_refl). reflexivity.
  - rewrite Htitle. reflexivity.
Defined.

(** ** Which columns play which part *)

Section ColumnProps.

Variable V : Type.
Variable Image : Type.
Variable Scalar : Type.
Variable shade : DataFrame V -> string -> string -> Image.
Variable col_min : series V -> Scalar.
Variable col_max : series V -> Scalar.
Variable scalar_sub : Scalar -> Scalar -> Scalar.
Variable env : Env V.

Local Abbreviation State' := (State Image Scalar).
Local Abbreviation step' := (step shade col_min col_max scalar_sub env).
Local Abbreviation run' := (run shade col_min col_max scalar_sub env).

Lemma VIS_COLUMNS_exactly (c : string) :
  str_in c VIS_COLUMNS = true <->
  c = "DATA" \/ c = "CORRECTED_DATA" \/ c = "MODEL_DATA"
  \/ c = "RESIDUAL_DATA".
Proof.
  rewrite str_in_In. unfold VIS_COLUMNS. simpl.
  intuition congruence.
Qed.

Lemma axis_options_spec (cols : list string) (c : string) :
  In c (axis_options cols) <-> In c cols /\ c <> "FLAG".
Proof.
  unfold axis_options. rewrite filter_In, negb_true_iff, String.eqb_neq.
  reflexivity.
Qed.

(** [update_corr_visibility] touches the correlation selector and the
    trace only, and shows the selector when an axis is a key of
    [vis_colinfo]. *)
Lemma update_corr_visibility_frame (s : State') :
  but_corr (state_of (update_corr_visibility env s)) = but_corr s.
Proof.
  unfold update_corr_visibility, run_io. destruct s; simpl.
  split_matches.
Qed.

Lemma update_corr_visibility_visible (s : State') :
  visible (select_corr (state_of (update_corr_visibility env s)))
  = has_key (vis_colinfo s) (value (select_x s))
    || has_key (vis_colinfo s) (value (select_y s)).
Proof.
  unfold update_corr_visibility, run_io. destruct s; simpl.
  split_matches.
Qed.

Lemma but_corr_eq (s s' : State') :
  but_corr s = but_corr s' ->
  selected_ms s = selected_ms s' /\ axis_opts s = axis_opts s'
  /\ vis_colinfo s = vis_colinfo s' /\ flag_col s = flag_col s'
  /\ global_flag_col s = global_flag_col s'
  /\ select_x s = select_x s' /\ select_y s = select_y s'
  /\ select_group s = select_group s'.
Proof.
  destruct s, s'; unfold but_corr; simpl. intros H. injection H.
  intros; subst. repeat split.
Qed.

Lemma assign_x_frame (v : option string) (s : State') :
  but_corr (state_of (assign_x env v s))
  = but_corr (set_select_x (mk_select (options (select_x s)) v) s).
Proof.
  unfold assign_x. destruct (opt_eqb _ _); [reflexivity |].
  apply update_corr_visibility_frame.
Qed.

Lemma assign_y_frame (v : option string) (s : State') :
  but_corr (state_of (assign_y env v s))
  = but_corr (set_select_y (mk_select (options (select_y s)) v) s).
Proof.
  unfold assign_y. destruct (opt_eqb _ _); [reflexivity |].
  apply update_corr_visibility_frame.
Qed.

(** [load_ms_columns] opens the table and raises: RuntimeError when the
    table cannot be opened, TypeError at [t.coldesc()] when it can. *)
Lemma load_ms_columns_eq ms_path tr :
  load_ms_columns env ms_path tr
  = (Raise (match open_table env ms_path with
            | Some _ => TypeError
            | None => RuntimeError
            end), tr ++ [ms_path]).
Proof.
  unfold load_ms_columns, io_bind, table, io_lift, coldesc.
  destruct (open_table env ms_path); reflexivity.
Qed.

(** So [ms_chosen] raises after a choice, having stored the path. *)
Lemma ms_chosen_raises (s : State') (v : string) :
  value (ms_select s) = Some v -> v <> "" ->
  ms_chosen env s
  = Raised (match open_table env (abspath env v) with
            | Some _ => TypeError
            | None => RuntimeError
            end)
      (set_trace (trace s ++ [abspath env v])
         (set_selected_ms (Some (abspath env v)) s)).
Proof.
  intros Hv Hne. unfold ms_chosen.
  rewrite Hv, (truthy_Some Hne). unfold run_io.
  rewrite load_ms_columns_eq. reflexivity.
Qed.

(** No callback assigns the [flag_col] that [run_plot] reads. *)
Lemma and_then_keeps_flag_col (o : outcome Image Scalar)
  (k : State' -> outcome Image Scalar) (s : State') :
  flag_col (state_of o) = flag_col s ->
  (forall s1, flag_col s1 = flag_col s ->
              flag_col (state_of (k s1)) = flag_col s) ->
  flag_col (state_of (and_then o k)) = flag_col s.
Proof.
  destruct o; simpl; auto.
Qed.

Lemma update_corr_visibility_keeps_flag_col (s : State') :
  flag_col (state_of (update_corr_visibility env s)) = flag_col s.
Proof.
  apply (but_corr_eq (update_corr_visibility_frame s)).
Qed.

Lemma assign_x_keeps_flag_col (v : option string) (s : State') :
  flag_col (state_of (assign_x env v s)) = flag_col s.
Proof.
  apply (but_corr_eq (assign_x_frame v s)).
Qed.

Lemma assign_y_keeps_flag_col (v : option string) (s : State') :
  flag_col (state_of (assign_y env v s)) = flag_col s.
Proof.
  apply (but_corr_eq (assign_y_frame v s)).
Qed.

Lemma ms_chosen_keeps_flag_col (s : State') :
  flag_col (state_of (ms_chosen env s)) = flag_col s.
Proof.
  unfold ms_chosen.
  destruct (truthy (value (ms_select s))); [| reflexivity].
  destruct (value (ms_select s)) as [v |]; [| reflexivity].
  unfold run_io.
  destruct (load_ms_columns env (abspath env v) _) as [[[cols vi] | e] tr];
    [| reflexivity].
  destruct (axis_options cols) as [| a0 opts]; [reflexivity |].
  apply and_then_keeps_flag_col.
  { rewrite assign_x_keeps_flag_col. reflexivity. }
  intros s5 H5.
  destruct (nth_error (a0 :: opts) 1); [| exact H5].
  apply and_then_keeps_flag_col.
  { rewrite assign_y_keeps_flag_col. exact H5. }
  intros s7 H7.
  apply and_then_keeps_flag_col.
  { rewrite update_corr_visibility_keeps_flag_col. exact H7. }
  intros s9 H9. exact H9.
Qed.

Lemma assign_ms_keeps_flag_col (v : option string) (s : State') :
  flag_col (state_of (assign_ms env v s)) = flag_col s.
Proof.
  unfold assign_ms. destruct (opt_eqb _ _); [reflexivity |].
  rewrite ms_chosen_keeps_flag_col. reflexivity.
Qed.

Lemma step_keeps_flag_col (s : State') (ev : event) :
  flag_col (state_of (step' s ev)) = flag_col s.
Proof.
  destruct ev; simpl.
  - unfold update_ms_list.
    destruct (list_possible_ms_dirs env "."); [| reflexivity].
    apply and_then_keeps_flag_col.
    + rewrite assign_ms_keeps_flag_col. reflexivity.
    + intros s1 H1. exact H1.
  - apply assign_ms_keeps_flag_col.
  - apply assign_x_keeps_flag_col.
  - apply assign_y_keeps_flag_col.
  - reflexivity.
  - reflexivity.
  - destruct (plot_button_disabled s); [reflexivity |].
    unfold run_plot, run_io. destruct s; simpl. split_matches.
  - destruct (export_button_disabled s); reflexivity.
Qed.

(** In every state the user can reach, the closure variable [flag_col]
    of [bokeh_app] still holds the None it was created with: the name
    [ms_chosen] assigns is the module global. *)
Lemma run_keeps_flag_col (evs : list event) (s : State') :
  flag_col (run' s evs) = flag_col s.
Proof.
  revert s. induction evs as [| ev evs IH]; intros s; simpl;
    [reflexivity |].
  rewrite IH. apply step_keeps_flag_col.
Qed.

Lemma bokeh_app_flag_col :
  flag_col (state_of (bokeh_app Image Scalar env)) = None.
Proof.
  unfold bokeh_app, update_ms_list.
  destruct (list_possible_ms_dirs env ".") as [dirs | e]; reflexivity.
Qed.

(** The widgets that only a successful [ms_chosen] or [run_plot] would
    fill: they stay as [bokeh_app] created them. *)
Local Abbreviation idle s :=
  (axis_opts s = [] /\ vis_colinfo s = []
   /\ flag_col s = None /\ global_flag_col s = None
   /\ options (select_x s) = [] /\ options (select_y s) = []
   /\ options (select_group s) = ["None"]
   /\ m_options (select_corr s) = [] /\ visible (select_corr s) = false
   /\ plot_button_disabled s = true /\ export_button_disabled s = true
   /\ status_div s = ""
   /\ outfig s = mk_figure "Scribble Plot" (empty_render Image Scalar)
   /\ exported s = []).

Lemma bokeh_app_idle : idle (state_of (bokeh_app Image Scalar env)).
Proof.
  unfold bokeh_app.
  destruct (list_possible_ms_dirs env ".") as [dirs | e]; simpl;
    repeat split.
Qed.

Lemma step_idle (s : State') (ev : event) :
  idle s -> idle (state_of (step' s ev)).
Proof.
  destruct s as [sel ms ao vc fc gfc sx sy sg sc pb eb st fig tr ex].
  destruct sx as [ox vx], sy as [oy vy], sg as [og vg], sc as [oc vcorr vis].
  simpl.
  intros (-> & -> & -> & -> & -> & -> & -> & -> & -> & -> & -> & -> & ->
          & ->).
  destruct ev as [| v | v | v | v | l | |]; simpl.
  - unfold update_ms_list.
    destruct (list_possible_ms_dirs env ".") as [dirs | e]; simpl;
      [| repeat split].
    unfold assign_ms; simpl.
    destruct (opt_eqb (value ms) None); simpl; repeat split.
  - unfold assign_ms; simpl.
    destruct (opt_eqb (value ms) v); simpl; [repeat split |].
    unfold ms_chosen; simpl.
    destruct v as [v |]; simpl; [| repeat split].
    destruct (String.eqb v ""); simpl; [repeat split |].
    unfold run_io. rewrite load_ms_columns_eq. simpl. repeat split.
  - unfold assign_x; simpl.
    destruct (opt_eqb vx v); simpl; [repeat split |].
    unfold update_corr_visibility; simpl.
    destruct v, vy; simpl; repeat split.
  - unfold assign_y; simpl.
    destruct (opt_eqb vy v); simpl; [repeat split |].
    unfold update_corr_visibility; simpl.
    destruct vx, v; simpl; repeat split.
  - repeat split.
  - repeat split.
  - repeat split.
  - repeat split.
Qed.

(** Whatever the user does, these widgets stay as they were created. *)
Lemma run_idle (evs : list event) (s : State') :
  idle s -> idle (run' s evs).
Proof.
  revert s. induction evs as [| ev evs IH]; intros s Hs; simpl;
    [exact Hs |].
  apply IH, step_idle, Hs.
Qed.

(** Where the labels of [get_corr_labels] come from: the fallback of the
    [except] branch calls [load_ms_columns], which raises. *)
Lemma get_corr_labels_origin ms_path vis_col tr labels tr' :
  get_corr_labels env ms_path vis_col tr = (Ok labels, tr') ->
  exists t c codes,
    open_table env (path_join ms_path "POLARIZATION") = Some t
    /\ getcol t "CORR_TYPE" = Ok c
    /\ first_row c = Ok codes
    /\ labels = map corr_label codes.
Proof.
  assert (Hfallback :
            forall tr0,
              (cv <- load_ms_columns env ms_path ;;
               let n := match dict_get (snd cv) vis_col with
                        | Some ci => n_corr ci
                        | None => 4
                        end in
               io_ret (map str_of_nat (seq 0 n)))%io tr0
              <> (Ok labels, tr')).
  { intros tr0. unfold io_bind. rewrite load_ms_columns_eq. discriminate. }
  unfold get_corr_labels, io_try.
  unfold io_bind at 1. unfold table, io_lift.
  destruct (open_table env (path_join ms_path "POLARIZATION")) as [t |]
    eqn:Hpol.
  - destruct (getcol t "CORR_TYPE") as [c | e] eqn:Hc;
      cbn [rbind]; [| intros H; elim (Hfallback _ H)].
    destruct (first_row c) as [codes | e] eqn:Hrow;
      cbn [rbind]; [| intros H; elim (Hfallback _ H)].
    intros H. injection H as <- _. now exists t, c, codes.
  - intros H. elim (Hfallback _ H).
Qed.

(** C6: the visibility columns are exactly DATA, CORRECTED_DATA,
    MODEL_DATA and RESIDUAL_DATA, and [load_ms_data] slices the correlation
    axis of these and of no other requested column; the labels that
    [get_corr_labels] returns are the codes of CORR_TYPE in the
    POLARIZATION subtable and nothing else; the comprehension of
    [ms_chosen] leaves FLAG, and only FLAG, out of the axis options; and
    [update_corr_visibility] shows the correlation selector exactly when
    an axis is a key of [vis_colinfo].  But the parts [ms_chosen] should
    give the columns are never given: for every choice whose table opens
    it raises TypeError at [t.coldesc()], right after it stored the path,
    and whatever the user does the axis selectors offer no column, no
    column is known as a visibility column, the correlation selector stays
    hidden, and the flag column [run_plot] passes on is None: FLAG masks
    nothing. *)
Theorem column_roles :
  (forall c, str_in c VIS_COLUMNS = true <->
             c = "DATA" \/ c = "CORRECTED_DATA" \/ c = "MODEL_DATA"
             \/ c = "RESIDUAL_DATA")
  /\ (forall (t : Table V) k c,
         str_in c VIS_COLUMNS = false ->
         fetch t (Some k) c = fetch t None c)
  /\ (forall (t : Table V) k c col,
         str_in c VIS_COLUMNS = true ->
         getcol t c = Ok col -> col_ndim col = 3 ->
         fetch t (Some k) c
         = (col' <- col_slice_last col k ;; Ok (col_flatten col'))%res)
  /\ (forall ms_path vis_col tr labels tr',
         get_corr_labels env ms_path vis_col tr = (Ok labels, tr') ->
         exists t c codes,
           open_table env (path_join ms_path "POLARIZATION") = Some t
           /\ getcol t "CORR_TYPE" = Ok c
           /\ first_row c = Ok codes
           /\ labels = map corr_label codes)
  /\ (forall cols c, In c (axis_options cols) <-> In c cols /\ c <> "FLAG")
  /\ (forall s : State',
         visible (select_corr (state_of (update_corr_visibility env s)))
         = has_key (vis_colinfo s) (value (select_x s))
           || has_key (vis_colinfo s) (value (select_y s)))
  /\ (forall (s : State') v (t : Table V),
         value (ms_select s) = Some v -> v <> "" ->
         open_table env (abspath env v) = Some t ->
         ms_chosen env s
         = Raised TypeError
             (set_trace (trace s ++ [abspath env v])
                (set_selected_ms (Some (abspath env v)) s)))
  /\ (forall evs,
         let s := run' (state_of (bokeh_app Image Scalar env)) evs in
         options (select_x s) = [] /\ options (select_y s) = []
         /\ options (select_group s) = ["None"]
         /\ vis_colinfo s = []
         /\ visible (select_corr s) = false
         /\ flag_col s = None).
Proof.
  split; [exact VIS_COLUMNS_exactly |].
  split.
  { intros t k c Hc. unfold fetch. now rewrite Hc. }
  split.
  { intros t k c col Hc Hget Hdim. unfold fetch.
    rewrite Hget, Hc. cbn [rbind]. now rewrite Hdim. }
  split; [exact get_corr_labels_origin |].
  split; [exact axis_options_spec |].
  split; [exact update_corr_visibility_visible |].
  split.
  { intros s v t Hv Hne Hopen.
    rewrite (ms_chosen_raises s Hv Hne), Hopen. reflexivity. }
  intros evs s.
  destruct (run_idle evs _ bokeh_app_idle)
    as (_ & Hvc & Hfc & _ & Hx & Hy & Hg & _ & Hvis & _).
  repeat split; assumption.
Qed.

End ColumnProps.

(** The demonstration set: TIME is fetched whole and DATA is sliced; its
    labels are RR and LL; choosing [obs.ms] raises, and after it no column
    is on offer and no flag column is set. *)
Lemma column_roles_witness :
  fetch Demo.main_table (Some 1) "TIME" = fetch Demo.main_table None "TIME"
  /\ fetch Demo.main_table (Some 1) "DATA" = Ok (ValSeries [2; 4; 6; 8]%Z)
  /\ get_corr_labels Demo.env "/w/obs.ms" "DATA" []
     = (Ok ["RR"; "LL"], ["/w/obs.ms/POLARIZATION"])
  /\ ms_chosen Demo.env Demo.obs_picked
     = Raised TypeError
         (set_trace ["/w/obs.ms"]
            (set_selected_ms (Some "/w/obs.ms") Demo.obs_picked))
  /\ options (select_x (Demo.chosen "obs.ms")) = []
  /\ flag_col (Demo.chosen "obs.ms") = None.
Proof.
  destruct (@column_roles Z Demo.Image Z Demo.shade Demo.col_min Demo.col_max
              Z.sub Demo.env)
    as (_ & Hplain & Hvis & Hlab & _ & _ & Hms & Hreach).
  split; [| split; [| split; [| split; [| split]]]].
  - apply Hplain. reflexivity.
  - rewrite (Hvis Demo.main_table 1 "DATA"
               (ValCol (mk_ndarray [2; 2; 2] [1; 2; 3; 4; 5; 6; 7; 8]%Z)));
      reflexivity.
  - assert (Hrun : get_corr_labels Demo.env "/w/obs.ms" "DATA" []
                   = (Ok ["RR"; "LL"], ["/w/obs.ms/POLARIZATION"]))
      by (vm_compute; reflexivity).
    destruct (Hlab _ _ _ _ _ Hrun) as (t & c & codes & _).
    exact Hrun.
  - apply (Hms Demo.obs_picked "obs.ms" Demo.main_table);
      [reflexivity | discriminate | reflexivity].
  - apply (Hreach [PickMs (Some "obs.ms")]).
  - apply (Hreach [PickMs (Some "obs.ms")]).
Defined.

(** ** What Plot loads *)

Section PlotProps.

Variable V : Type.
Variable Image : Type.
Variable Scalar : Type.
Variable shade : DataFrame V -> string -> string -> Image.
Variable col_min : series V -> Scalar.
Variable col_max : series V -> Scalar.
Variable scalar_sub : Scalar -> Scalar -> Scalar.
Variable env : Env V.

Local Abbreviation plot := (run_plot shade col_min col_max scalar_sub env).

Lemma In_set_add (x y : string) (l : list string) :
  In x (set_add y l) <-> x = y \/ In x l.
Proof.
  unfold set_add. destruct (str_in y l) eqn:E.
  - apply str_in_In in E. split; [auto |].
    intros [-> | H]; assumption.
  - rewrite in_app_iff. simpl. split.
    + intros [H | [H | []]]; auto.
    + intros [H | H]; auto.
Qed.

Lemma use_columns_axes xcol ycol groupcol fc vis :
  In xcol (use_columns xcol ycol groupcol fc vis)
  /\ In ycol (use_columns xcol ycol groupcol fc vis).
Proof.
  unfold use_columns.
  set (u0 := set_add ycol (set_add xcol [])).
  assert (H0 : In xcol u0 /\ In ycol u0).
  { unfold u0. rewrite !In_set_add. auto. }
  set (u1 := match groupcol with
             | Some g => if truthy groupcol then set_add g u0 else u0
             | None => u0
             end).
  assert (H1 : In xcol u1 /\ In ycol u1).
  { unfold u1. destruct groupcol as [g |]; [| exact H0].
    destruct (truthy (Some g)); [| exact H0].
    rewrite !In_set_add. tauto. }
  set (u2 := match fc with
             | Some f => if truthy fc then set_add f u1 else u1
             | None => u1
             end).
  assert (H2 : In xcol u2 /\ In ycol u2).
  { unfold u2. destruct fc as [f |]; [| exact H1].
    destruct (truthy (Some f)); [| exact H1].
    rewrite !In_set_add. tauto. }
  clearbody u2. clear - H2. revert u2 H2.
  induction vis as [| v vis IH]; intros u2 H2; simpl; [exact H2 |].
  apply IH. destruct (String.eqb xcol v || String.eqb ycol v); [| exact H2].
  rewrite !In_set_add. tauto.
Qed.

(** [load_ms_data] without a flag column: the frame of the fetched
    columns, when they are of one length. *)
Lemma load_unmasked_ok (t : Table V) ms_path usecols corr_idx tr n :
  open_table env ms_path = Some t ->
  (forall c, In c usecols ->
             exists sr, fetch t corr_idx c = Ok sr /\ series_len sr = n) ->
  exists df,
    load_ms_data env ms_path usecols corr_idx None tr
    = (Ok df, tr ++ [ms_path])
    /\ Forall (fun p => series_len (snd p) = n) df
    /\ (forall c, In c usecols ->
                  exists sr, dict_get df c = Some sr /\ series_len sr = n)
    /\ (forall c, In c usecols -> dict_get df c = fetched t corr_idx c).
Proof.
  intros Hopen Hcols.
  destruct (@fetch_all_spec V t corr_idx (fun sr => series_len sr = n)
              usecols [] Hcols (Forall_nil _)) as [arrs [Hrun [Hlen Hget]]].
  exists arrs. split; [| split; [| split]].
  - unfold load_ms_data, io_bind, table, io_lift, load_from.
    rewrite Hopen, Hrun. cbn [rbind].
    now rewrite (@mk_DataFrame_ok V n arrs Hlen).
  - exact Hlen.
  - intros c Hc. destruct (Hcols c Hc) as [sr [Hsr Hn]].
    exists sr. split; [| exact Hn].
    rewrite Hget. apply str_in_In in Hc. rewrite Hc.
    unfold fetched. now rewrite Hsr.
  - intros c Hc. rewrite Hget. apply str_in_In in Hc. now rewrite Hc.
Qed.

Lemma dict_get_In {A} (d : list (string * A)) k v :
  dict_get d k = Some v -> In (k, v) d.
Proof.
  induction d as [| [k0 v0] d IH]; simpl; [discriminate |].
  destruct (String.eqb k k0) eqn:E.
  - apply String.eqb_eq in E. subst. intros H. injection H as ->. now left.
  - intros H. right. now apply IH.
Qed.

(** ... and ValueError when two of them differ in length. *)
Lemma load_unmasked_mismatch (t : Table V) ms_path usecols corr_idx tr
  c1 c2 s1 s2 :
  open_table env ms_path = Some t ->
  (forall c, In c usecols -> exists sr, fetch t corr_idx c = Ok sr) ->
  In c1 usecols -> In c2 usecols ->
  fetch t corr_idx c1 = Ok s1 -> fetch t corr_idx c2 = Ok s2 ->
  series_len s1 <> series_len s2 ->
  load_ms_data env ms_path usecols corr_idx None tr
  = (Raise ValueError, tr ++ [ms_path]).
Proof.
  intros Hopen Hcols H1 H2 Hf1 Hf2 Hne.
  destruct (@fetch_all_spec V t corr_idx (fun _ => True) usecols [])
    as [arrs [Hrun [_ Hget]]].
  { intros c Hc. destruct (Hcols c Hc) as [sr Hsr]. now exists sr. }
  { constructor. }
  unfold load_ms_data, io_bind, table, io_lift, load_from.
  rewrite Hopen, Hrun. cbn [rbind].
  destruct (mk_DataFrame arrs) as [df | e] eqn:Hdf.
  - exfalso. apply mk_DataFrame_lengths in Hdf. destruct Hdf as [-> Hall].
    rewrite Forall_forall in Hall. apply Hne.
    assert (G1 : dict_get arrs c1 = Some s1).
    { rewrite Hget. apply str_in_In in H1. rewrite H1.
      unfold fetched. now rewrite Hf1. }
    assert (G2 : dict_get arrs c2 = Some s2).
    { rewrite Hget. apply str_in_In in H2. rewrite H2.
      unfold fetched. now rewrite Hf2. }
    apply dict_get_In, Hall in G1. apply dict_get_In, Hall in G2.
    simpl in G1, G2. congruence.
  - f_equal. unfold mk_DataFrame in Hdf.
    destruct arrs as [| [k sr] rest]; [discriminate |].
    destruct (forallb _ rest); congruence.
Qed.

(** C2, as the code has it: [load_ms_data], called as [run_plot] calls it,
    returns a frame in which every requested column has one length [n]
    provided the requested columns -- the two axes and the group column --
    are in the table and, after the correlation slice and flattening, all
    have that length [n].  When two requested columns differ in length, as
    a visibility column with a channel axis and a per-row column do,
    [load_ms_data] raises ValueError, and [run_plot] raises with it.  The
    flag column [run_plot] passes on is None, as it is in every state the
    user reaches. *)
Theorem load_needs_equal_lengths :
  (forall ms_path (t : Table V) xcol ycol groupcol ci n tr,
      open_table env ms_path = Some t ->
      let usecols := use_columns xcol ycol groupcol None VIS_COLUMNS in
      (forall c, In c usecols ->
                 exists sr, fetch t ci c = Ok sr /\ series_len sr = n) ->
      exists df,
        load_ms_data env ms_path usecols ci None tr
        = (Ok df, tr ++ [ms_path])
        /\ Forall (fun p => series_len (snd p) = n) df
        /\ (forall c, In c usecols ->
                      exists sr, dict_get df c = Some sr
                                 /\ series_len sr = n))
  /\ (forall (s : State Image Scalar) ms_path (t : Table V) xcol ycol ci
        c1 c2 s1 s2,
         selected_ms s = Some ms_path -> ms_path <> "" ->
         value (select_x s) = Some xcol ->
         value (select_y s) = Some ycol ->
         corr_index (select_corr s) = Ok ci ->
         flag_col s = None ->
         open_table env ms_path = Some t ->
         let usecols :=
           use_columns xcol ycol (group_column (select_group s)) None
             VIS_COLUMNS in
         (forall c, In c usecols -> exists sr, fetch t ci c = Ok sr) ->
         In c1 usecols -> In c2 usecols ->
         fetch t ci c1 = Ok s1 -> fetch t ci c2 = Ok s2 ->
         series_len s1 <> series_len s2 ->
         load_ms_data env ms_path usecols ci None (trace s)
         = (Raise ValueError, trace s ++ [ms_path])
         /\ plot s = Raised ValueError (set_trace (trace s ++ [ms_path]) s)).
Proof.
  split.
  - intros ms_path t xcol ycol groupcol ci n tr Hopen usecols Hcols.
    destruct (@load_unmasked_ok t ms_path _ ci tr n Hopen Hcols)
      as [df [Hload [Hlen [Hget _]]]].
    exists df. split; [exact Hload |]. split; [exact Hlen | exact Hget].
  - intros s ms_path t xcol ycol ci c1 c2 s1 s2 Hsel Hne Hx Hy Hci Hflag
      Hopen usecols Hcols H1 H2 Hf1 Hf2 Hlen.
    assert (Hload : load_ms_data env ms_path usecols ci None (trace s)
                    = (Raise ValueError, trace s ++ [ms_path])).
    { exact (@load_unmasked_mismatch t ms_path usecols ci (trace s) c1 c2
               s1 s2 Hopen Hcols H1 H2 Hf1 Hf2 Hlen). }
    split; [exact Hload |].
    unfold run_plot. rewrite Hsel, (truthy_Some Hne). cbn [negb].
    rewrite Hci, Hx, Hy, Hflag. unfold run_io. fold usecols.
    now rewrite Hload.
Qed.

End PlotProps.

(** TIME against ANTENNA1 in the demonstration set: two per-row columns, a
    frame of two rows.  TIME against DATA: no frame. *)
Lemma load_needs_equal_lengths_witness :
  (exists df,
      load_ms_data Demo.env "/w/obs.ms" ["TIME"; "ANTENNA1"] None None []
      = (Ok df, [] ++ ["/w/obs.ms"])
      /\ Forall (fun p => series_len (snd p) = 2) df)
  /\ load_ms_data Demo.env "/w/obs.ms" ["TIME"; "DATA"] None None
       (trace Demo.time_data)
     = (Raise ValueError, trace Demo.time_data ++ ["/w/obs.ms"]).
Proof.
  destruct (@load_needs_equal_lengths Z Demo.Image Z Demo.shade
              Demo.col_min Demo.col_max Z.sub Demo.env) as [Hok Hbad].
  split.
  - destruct (Hok "/w/obs.ms" Demo.main_table "TIME" "ANTENNA1" None None 2
                [])
      as (df & Hload & Hlen & _).
    + reflexivity.
    + intros c Hc. vm_compute in Hc.
      destruct Hc as [<- | [<- | []]]; eexists; split; reflexivity.
    + exists df. split; [exact Hload | exact Hlen].
  - apply (Hbad Demo.time_data "/w/obs.ms" Demo.main_table "TIME" "DATA"
             None "TIME" "DATA" (ValSeries [100; 200]%Z)
             (ValSeries [1; 2; 3; 4; 5; 6; 7; 8]%Z)).
    + vm_compute. reflexivity.
    + discriminate.
    + vm_compute. reflexivity.
    + vm_compute. reflexivity.
    + vm_compute. reflexivity.
    + vm_compute. reflexivity.
    + reflexivity.
    + intros c Hc. vm_compute in Hc.
      destruct Hc as [<- | [<- | []]]; eexists; reflexivity.
    + vm_compute. tauto.
    + vm_compute. tauto.
    + reflexivity.
    + reflexivity.
    + simpl. discriminate.
Defined.

(** C2 as stated fails: TIME and DATA are both columns of the
    demonstration table that the comprehension of [ms_chosen] keeps as axis
    options, yet for X on TIME (2 samples) and Y on DATA (8 samples, or 4
    at one correlation) [load_ms_data] returns no frame: it raises
    ValueError, and Plot raises with it, leaving the figure empty. *)
Lemma plot_time_against_data_raises :
  In "TIME" (axis_options (colnames Demo.main_table))
  /\ In "DATA" (axis_options (colnames Demo.main_table))
  /\ load_ms_data Demo.env "/w/obs.ms"
       (use_columns "TIME" "DATA" None None VIS_COLUMNS) None None []
     = (Raise ValueError, ["/w/obs.ms"])
  /\ load_ms_data Demo.env "/w/obs.ms"
       (use_columns "TIME" "DATA" None None VIS_COLUMNS) (Some 0) None []
     = (Raise ValueError, ["/w/obs.ms"])
  /\ exists s',
       run_plot Demo.shade Demo.col_min Demo.col_max Z.sub Demo.env
         Demo.time_data
       = Raised ValueError s'
       /\ image (render (outfig s')) = [].
Proof.
  split; [vm_compute; tauto |].
  split; [vm_compute; tauto |].
  split; [vm_compute; reflexivity |].
  split; [vm_compute; reflexivity |].
  eexists. split; vm_compute; reflexivity.
Qed.

(** ** The flag column of the current version

    The variable [flag_col] of [bokeh_app] that [run_plot] reads is never
    assigned ([ms_chosen] raises before its last line, which would bind a
    module global anyway): on the set whose samples are all flagged
    [load_ms_data] is called without a flag column and keeps both rows,
    where the [run_plot] of the build, on the controls for that set,
    reports that there is no data. *)
Example current_plot_keeps_flagged_samples :
  flag_col (Demo.with_axes "TIME" "ANTENNA1" (Demo.chosen "flagged.ms"))
  = None
  /\ load_ms_data Demo.env "/w/flagged.ms"
       (use_columns "TIME" "ANTENNA1" None None VIS_COLUMNS) None None []
     = (Ok [("TIME", ValSeries [100; 200]%Z);
            ("ANTENNA1", IntSeries Z [0; 1]%Z)], ["/w/flagged.ms"])
  /\ Build.plot_status
       (snd (fst (Build.run_plot Demo.shade Demo.col_min Demo.col_max Z.sub
                    Demo.exn_text Demo.env
                    (Demo.controls "/w/flagged.ms"
                       ["TIME"; "ANTENNA1"; "FLAG"])
                    ["/w/flagged.ms"])))
     = "<span style='color:red;'>No data to plot (all flagged?)</span>".
Proof.
  repeat split; vm_compute; reflexivity.
Qed.

(** * Further properties of the code *)

(** ** The correlation slice *)

Lemma stride_pick_as_map {A} (d : A) (c k : nat) (l : list A) :
  forall n a,
    (forall i, a <= i < a + n -> i * c + k < length l) ->
    flat_map (fun i => match nth_error l (i * c + k) with
                       | Some v => [v]
                       | None => []
                       end) (seq a n)
    = map (fun i => nth (i * c + k) l d) (seq a n).
Proof.
  induction n as [| n IH]; intros a Hin; simpl; [reflexivity |].
  rewrite IH by (intros i Hi; apply Hin; lia).
  assert (Ha : a * c + k < length l) by (apply Hin; lia).
  destruct (nth_error l (a * c + k)) as [v |] eqn:E.
  - simpl. f_equal. symmetry. now apply nth_error_nth.
  - apply nth_error_None in E. lia.
Qed.

Lemma stride_pick_nth {A} (n c k : nat) (l : list A) :
  length l = n * c -> k < c ->
  length (stride_pick n c k l) = n
  /\ forall j, j < n ->
               nth_error (stride_pick n c k l) j = nth_error l (j * c + k).
Proof.
  intros Hlen Hk.
  assert (Hin : forall i, 0 <= i < 0 + n -> i * c + k < length l).
  { intros i Hi. rewrite Hlen. nia. }
  destruct l as [| d l'].
  - simpl in Hlen. assert (n = 0) by nia. subst n. split; [reflexivity |].
    intros j Hj. lia.
  - unfold stride_pick. rewrite (@stride_pick_as_map _ d c k (d :: l') n 0 Hin).
    split; [now rewrite length_map, length_seq |].
    intros j Hj. rewrite nth_error_map, nth_error_seq.
    destruct (Nat.ltb_spec j n) as [_ | H]; [| lia].
    cbn [option_map]. change (0 + j) with j.
    symmetry. apply nth_error_nth'. apply Hin. lia.
Qed.

(** X1: on a well-shaped three-axis visibility column of shape (n, m, c)
    and a correlation index k below c, the array [load_ms_data] keeps has
    n * m samples, and its sample j is cell j * c + k of the column: the
    k-th correlation of every row and channel, in row-major order. *)
Theorem corr_slice_picks_every_cth :
  forall (V : Type) (t : Table V) col (a : ndarray V) n m c k,
    str_in col VIS_COLUMNS = true ->
    getcol t col = Ok (ValCol a) ->
    shape a = [n; m; c] ->
    well_shaped a ->
    k < c ->
    exists l,
      fetch t (Some k) col = Ok (ValSeries l)
      /\ length l = n * m
      /\ forall j, j < n * m ->
                   nth_error l j = nth_error (cells a) (j * c + k).
Proof.
  intros V t col a n m c k Hvis Hget Hshape Hwf Hk.
  unfold well_shaped in Hwf. rewrite Hshape in Hwf. simpl in Hwf.
  assert (Hlen : length (cells a) = n * m * c) by lia.
  destruct (@stride_pick_nth _ (n * m) c k (cells a) Hlen Hk) as [Hl Hnth].
  exists (stride_pick (n * m) c k (cells a)).
  split; [| split; assumption].
  unfold fetch. rewrite Hget, Hvis. cbn [rbind col_ndim].
  unfold ndim. rewrite Hshape. cbn [length Nat.eqb col_slice_last].
  unfold slice_last. rewrite Hshape.
  apply Nat.ltb_lt in Hk. rewrite Hk. reflexivity.
Qed.

(** DATA of the demonstration set at the second correlation. *)
Lemma corr_slice_picks_every_cth_witness :
  exists l,
    fetch Demo.main_table (Some 1) "DATA" = Ok (ValSeries l)
    /\ length l = 2 * 2
    /\ forall j, j < 2 * 2 ->
                 nth_error l j
                 = nth_error [1; 2; 3; 4; 5; 6; 7; 8]%Z (j * 2 + 1).
Proof.
  apply (@corr_slice_picks_every_cth Z Demo.main_table "DATA"
           (mk_ndarray [2; 2; 2] [1; 2; 3; 4; 5; 6; 7; 8]%Z) 2 2 2 1).
  - reflexivity.
  - reflexivity.
  - reflexivity.
  - reflexivity.
  - lia.
Defined.

(** ** What [load_ms_data] raises and what its frame holds *)

Section LoadMore.

Variable V : Type.
Implicit Types (t : Table V) (df : DataFrame V).

Lemma fetch_errors t corr_idx c e :
  fetch t corr_idx c = Raise e -> e = RuntimeError \/ e = IndexError.
Proof.
  unfold fetch, getcol.
  destruct (dict_get t c) as [entry |]; cbn [rbind];
    [| intros H; injection H as <-; now left].
  destruct (str_in c VIS_COLUMNS); [| discriminate].
  destruct corr_idx as [k |]; cbn [rbind]; [| discriminate].
  destruct (col_ndim (contents entry) =? 3)%nat; cbn [rbind];
    [| discriminate].
  destruct (contents entry) as [a | a | a]; cbn [col_slice_last];
    unfold slice_last;
    destruct (shape a) as [| n [| m [| c' [| ? ?]]]]; cbn [rbind];
    try (intros H; injection H as <-; now right);
    destruct (k <? c')%nat; cbn [rbind]; try discriminate;
    intros H; injection H as <-; now right.
Qed.

Lemma fetch_all_raises t corr_idx c e :
  forall usecols acc,
    In c usecols -> fetch t corr_idx c = Raise e ->
    exists e', fetch_all t corr_idx usecols acc = Raise e'
               /\ (e' = RuntimeError \/ e' = IndexError).
Proof.
  induction usecols as [| c0 rest IH]; intros acc Hin Hf; [destruct Hin |].
  simpl. destruct (fetch t corr_idx c0) as [s0 | e0] eqn:E0; cbn [rbind].
  - destruct Hin as [-> | Hin]; [congruence |]. now apply IH.
  - exists e0. split; [reflexivity | exact (fetch_errors _ _ _ E0)].
Qed.

(** X2: a requested column that is not in the table, or a correlation
    index that is not below the last axis of a requested three-axis
    visibility column, makes [load_ms_data] raise -- RuntimeError or
    IndexError, whichever column fails first -- after the one [table]
    call. *)
Theorem load_ms_data_raises_on_bad_column :
  forall (env : Env V) ms_path t usecols corr_idx flag_col tr c,
    open_table env ms_path = Some t ->
    In c usecols ->
    dict_get t c = None
    \/ (exists (a : ndarray V) d n m c' k,
           dict_get t c = Some (mk_col d (ValCol a))
           /\ str_in c VIS_COLUMNS = true
           /\ shape a = [n; m; c']
           /\ corr_idx = Some k /\ c' <= k) ->
    exists e,
      load_ms_data env ms_path usecols corr_idx flag_col tr
      = (Raise e, tr ++ [ms_path])
      /\ (e = RuntimeError \/ e = IndexError).
Proof.
  intros env ms_path t usecols corr_idx flag_col tr c Hopen Hin Hbad.
  assert (Hf : exists e, fetch t corr_idx c = Raise e).
  { destruct Hbad as [Hnone | (a & d & n & m & c' & k & Hget & Hvis & Hsh
                               & -> & Hk)].
    - exists RuntimeError. unfold fetch, getcol. now rewrite Hnone.
    - exists IndexError. unfold fetch, getcol. rewrite Hget, Hvis.
      cbn [rbind contents col_ndim]. unfold ndim. rewrite Hsh.
      cbn [length Nat.eqb col_slice_last]. unfold slice_last. rewrite Hsh.
      apply Nat.ltb_ge in Hk. now rewrite Hk. }
  destruct Hf as [e Hf].
  destruct (fetch_all_raises t corr_idx c usecols [] Hin Hf)
    as [e' [Hrun He']].
  exists e'. split; [| exact He'].
  unfold load_ms_data, io_bind, table, io_lift, load_from.
  now rewrite Hopen, Hrun.
Qed.

Lemma dict_set_keys {A} (d : list (string * A)) k v c :
  In c (map fst (dict_set d k v)) <-> c = k \/ In c (map fst d).
Proof.
  induction d as [| [k0 v0] d IH]; simpl.
  - intuition congruence.
  - destruct (String.eqb k k0) eqn:E; simpl.
    + apply String.eqb_eq in E. subst k0. intuition congruence.
    + rewrite IH. intuition congruence.
Qed.

Lemma dict_set_NoDup {A} (d : list (string * A)) k v :
  NoDup (map fst d) -> NoDup (map fst (dict_set d k v)).
Proof.
  induction d as [| [k0 v0] d IH]; simpl; intros Hnd.
  - constructor; [intros [] | constructor].
  - inversion Hnd as [| ? ? Hnotin Hnd']; subst.
    destruct (String.eqb k k0) eqn:E; simpl.
    + apply String.eqb_eq in E. subst k0. now constructor.
    + apply String.eqb_neq in E. constructor; [| now apply IH].
      rewrite dict_set_keys. intros [H | H]; [congruence | contradiction].
Qed.

Lemma fetch_all_keys t corr_idx :
  forall usecols acc arrs,
    fetch_all t corr_idx usecols acc = Ok arrs ->
    (forall c, In c (map fst arrs) <-> In c usecols \/ In c (map fst acc))
    /\ (NoDup (map fst acc) -> NoDup (map fst arrs)).
Proof.
  induction usecols as [| c0 rest IH]; intros acc arrs; simpl.
  - intros H. injection H as <-. split; [tauto | auto].
  - destruct (fetch t corr_idx c0) as [s0 |]; cbn [rbind]; [| discriminate].
    intros H. destruct (IH _ _ H) as [Hk Hnd]. split.
    + intros c. rewrite Hk, dict_set_keys. intuition congruence.
    + intros Hacc. apply Hnd. now apply dict_set_NoDup.
Qed.

Lemma mask_all_keys mask (arrs arrs' : list (string * series V)) :
  mask_all mask arrs = Ok arrs' -> map fst arrs' = map fst arrs.
Proof.
  revert arrs'. induction arrs as [| [k s] rest IH]; intros arrs'; simpl.
  - intros H. now injection H as <-.
  - destruct (series_take mask s); cbn [rbind]; [| discriminate].
    destruct (mask_all mask rest) as [rest' |]; cbn [rbind];
      [| discriminate].
    intros H. injection H as <-. simpl. f_equal. now apply IH.
Qed.

Lemma load_frame_invariant :
  forall (env : Env V) ms_path usecols corr_idx flag_col tr df tr',
    load_ms_data env ms_path usecols corr_idx flag_col tr = (Ok df, tr') ->
    (forall c, In c (map fst df) <-> In c usecols)
    /\ NoDup (map fst df)
    /\ Forall (fun p => series_len (snd p) = df_len df) df.
Proof.
  intros env ms_path usecols corr_idx flag_col tr df tr'.
  unfold load_ms_data, io_bind, table, io_lift, load_from.
  destruct (open_table env ms_path) as [t |]; [| discriminate].
  destruct (fetch_all t corr_idx usecols []) as [arrs |] eqn:Hrun;
    cbn [rbind]; [| discriminate].
  destruct (fetch_all_keys _ _ _ _ Hrun) as [Hkeys Hnd].
  assert (Hmasked :
            forall arrs', mk_DataFrame arrs' = Ok df ->
                          map fst arrs' = map fst arrs ->
                          (forall c, In c (map fst df) <-> In c usecols)
                          /\ NoDup (map fst df)
                          /\ Forall (fun p => series_len (snd p) = df_len df)
                               df).
  { intros arrs' Hdf Hsame.
    destruct (mk_DataFrame_lengths _ Hdf) as [-> Hlen].
    rewrite Hsame. split; [| split; [| exact Hlen]].
    - intros c. rewrite Hkeys. simpl. tauto.
    - apply Hnd. constructor. }
  destruct flag_col as [fc |].
  - destruct (truthy (Some fc) && str_in fc (colnames t)).
    + destruct (flags_flat t corr_idx fc) as [flags |]; cbn [rbind];
        [| discriminate].
      destruct (invert flags) as [mask |]; cbn [rbind]; [| discriminate].
      destruct (mask_all mask arrs) as [arrs' |] eqn:Hm; cbn [rbind];
        [| discriminate].
      intros H. injection H as H _.
      apply (Hmasked arrs' H). exact (mask_all_keys _ _ Hm).
    + cbn [rbind]. intros H. injection H as H _. now apply (Hmasked arrs).
  - cbn [rbind]. intros H. injection H as H _. now apply (Hmasked arrs).
Qed.

(** X3: a frame that [load_ms_data] returns has exactly the requested
    columns, each once however often it was requested, and all of one
    length. *)
Theorem load_ms_data_frame_columns :
  forall (env : Env V) ms_path usecols corr_idx flag_col tr df tr',
    load_ms_data env ms_path usecols corr_idx flag_col tr = (Ok df, tr') ->
    (forall c, In c (map fst df) <-> In c usecols)
    /\ NoDup (map fst df)
    /\ Forall (fun p => series_len (snd p) = df_len df) df.
Proof.
  intros env ms_path usecols corr_idx flag_col tr df tr' Hload.
  exact (load_frame_invariant _ _ _ _ _ _ Hload).
Qed.

Lemma series_index_mismatch mask (s : series V) :
  series_len s <> length mask -> series_index mask s = Raise IndexError.
Proof.
  intros H. destruct s; simpl in *; unfold bool_index;
    (destruct (Nat.eqb_spec (length mask) (length l)) as [E | _];
     [exfalso; apply H; now rewrite E | reflexivity]).
Qed.

Lemma series_index_raises mask (s : series V) e :
  series_index mask s = Raise e -> e = IndexError.
Proof.
  destruct s; simpl; unfold bool_index;
    destruct (length mask =? length l)%nat; cbn [rbind]; congruence.
Qed.

Lemma mask_all_mismatch mask (arrs : list (string * series V)) k s :
  In (k, s) arrs -> series_len s <> length mask ->
  mask_all (BoolSeries V mask) arrs = Raise IndexError.
Proof.
  intros Hin Hne. induction arrs as [| [k0 s0] rest IH]; [destruct Hin |].
  cbn [mask_all series_take]. destruct Hin as [H | Hin].
  - injection H as -> ->. now rewrite (series_index_mismatch mask s Hne).
  - destruct (series_index mask s0) as [s0' | e] eqn:E0; cbn [rbind].
    + now rewrite (IH Hin).
    + now rewrite (series_index_raises mask s0 E0).
Qed.

Lemma mask_mismatch_raises :
  forall (env : Env V) ms_path t usecols corr_idx fc flags tr c s,
    open_table env ms_path = Some t ->
    fc <> "" ->
    flat_flags t corr_idx fc = Ok flags ->
    (forall c', In c' usecols -> exists s', fetch t corr_idx c' = Ok s') ->
    In c usecols ->
    fetch t corr_idx c = Ok s ->
    series_len s <> length flags ->
    load_ms_data env ms_path usecols corr_idx (Some fc) tr
    = (Raise IndexError, tr ++ [ms_path]).
Proof.
  intros env ms_path t usecols corr_idx fc flags tr c s Hopen Hfc Hflags
    Hcols Hin Hfetch Hne.
  destruct (@fetch_all_spec V t corr_idx (fun _ => True) usecols [])
    as [arrs [Hrun [_ Hget]]].
  { intros c' Hc'. destruct (Hcols c' Hc') as [s' Hs']. now exists s'. }
  { constructor. }
  assert (Hc : In (c, s) arrs).
  { apply dict_get_In. rewrite Hget. apply str_in_In in Hin. rewrite Hin.
    unfold fetched. now rewrite Hfetch. }
  unfold load_ms_data, io_bind, table, io_lift, load_from.
  rewrite Hopen, Hrun. cbn [rbind].
  rewrite (truthy_Some Hfc), (flat_flags_colnames t corr_idx fc Hflags).
  cbn [andb].
  rewrite rbind_assoc, (flat_flags_mask t corr_idx fc Hflags). cbn [rbind].
  rewrite (mask_all_mismatch (map negb flags) arrs c s Hc);
    [reflexivity | now rewrite length_map].
Qed.

(** X4: when a flag column is given and one requested column has, once
    flattened, another length than the flattened flag array, the boolean
    index does not fit and [load_ms_data] raises IndexError. *)
Theorem flag_mask_length_mismatch_raises :
  forall (env : Env V) ms_path t usecols corr_idx fc flags tr c s,
    open_table env ms_path = Some t ->
    fc <> "" ->
    flat_flags t corr_idx fc = Ok flags ->
    (forall c', In c' usecols -> exists s', fetch t corr_idx c' = Ok s') ->
    In c usecols ->
    fetch t corr_idx c = Ok s ->
    series_len s <> length flags ->
    load_ms_data env ms_path usecols corr_idx (Some fc) tr
    = (Raise IndexError, tr ++ [ms_path]).
Proof.
  intros env ms_path t usecols corr_idx fc flags tr c s Hopen Hfc Hflags
    Hcols Hin Hfetch Hne.
  now apply (@mask_mismatch_raises env ms_path t usecols corr_idx fc flags
               tr c s).
Qed.

(** X5: FLAG itself among the requested columns, together with a
    correlation index: FLAG is no visibility column, so it is kept whole
    while the mask is sliced, and on a well-shaped three-axis FLAG with two
    correlations or more and at least one row and channel the two lengths
    differ: [load_ms_data] raises IndexError. *)
Theorem flag_column_with_slice_raises :
  forall (env : Env V) ms_path t usecols k (a : ndarray bool) d n m c tr,
    open_table env ms_path = Some t ->
    dict_get t "FLAG" = Some (mk_col d (BoolCol V a)) ->
    shape a = [n; m; c] -> well_shaped a ->
    k < c -> 2 <= c -> 0 < n * m ->
    In "FLAG" usecols ->
    (forall c', In c' usecols -> exists s', fetch t (Some k) c' = Ok s') ->
    load_ms_data env ms_path usecols (Some k) (Some "FLAG") tr
    = (Raise IndexError, tr ++ [ms_path]).
Proof.
  intros env ms_path t usecols k a d n m c tr Hopen Hget Hsh Hwf Hk Hc Hnm
    Hin Hcols.
  unfold well_shaped in Hwf. rewrite Hsh in Hwf. simpl in Hwf.
  assert (Hlen : length (cells a) = n * m * c) by lia.
  destruct (@stride_pick_nth _ (n * m) c k (cells a) Hlen Hk) as [Hl _].
  apply (@mask_mismatch_raises env ms_path t usecols (Some k)
           "FLAG" (stride_pick (n * m) c k (cells a)) tr "FLAG"
           (BoolSeries V (cells a))); try assumption.
  - discriminate.
  - unfold flat_flags, flags_flat, getcol. rewrite Hget.
    cbn [rbind contents col_ndim]. unfold ndim. rewrite Hsh.
    cbn [length Nat.eqb col_slice_last]. unfold slice_last. rewrite Hsh.
    apply Nat.ltb_lt in Hk. rewrite Hk. reflexivity.
  - unfold fetch, getcol. rewrite Hget. reflexivity.
  - simpl. rewrite Hl, Hlen. nia.
Qed.

Lemma count_occ_negb (flags : list bool) :
  count_occ bool_dec (map negb flags) true = count_occ bool_dec flags false.
Proof.
  induction flags as [| [|] flags IH]; simpl; congruence.
Qed.

Lemma count_occ_all_flagged (flags : list bool) :
  forallb (fun b => b) flags = true -> count_occ bool_dec flags false = 0.
Proof.
  induction flags as [| [|] flags IH]; simpl; auto. discriminate.
Qed.

(** X6: with a flag column and columns of the length of the flag array,
    the frame has as many rows as there are unflagged samples; when every
    sample is flagged the frame is empty. *)
Theorem masked_frame_counts_unflagged :
  forall (env : Env V) ms_path t usecols corr_idx fc flags tr,
    open_table env ms_path = Some t ->
    fc <> "" ->
    flat_flags t corr_idx fc = Ok flags ->
    usecols <> [] ->
    (forall c, In c usecols ->
               exists s, fetch t corr_idx c = Ok s
                         /\ series_len s = length flags) ->
    exists df,
      load_ms_data env ms_path usecols corr_idx (Some fc) tr
      = (Ok df, tr ++ [ms_path])
      /\ df_len df = count_occ bool_dec flags false
      /\ (forallb (fun b => b) flags = true -> df_empty df = true).
Proof.
  intros env ms_path t usecols corr_idx fc flags tr Hopen Hfc Hflags Hne
    Hcols.
  destruct (@fetch_all_spec V t corr_idx
              (fun s => series_len s = length flags) usecols [] Hcols
              (Forall_nil _)) as [arrs [Hrun [Hlen Hget]]].
  set (df := map (fun p => (fst p, series_select (map negb flags) (snd p)))
               arrs).
  assert (Hall : Forall (fun p => series_len (snd p)
                                  = count_occ bool_dec flags false) df).
  { unfold df. apply Forall_map. simpl.
    eapply Forall_impl; [| exact Hlen].
    intros p Hp. rewrite series_select_len by (now rewrite length_map).
    apply count_occ_negb. }
  assert (Hload : load_ms_data env ms_path usecols corr_idx (Some fc) tr
                  = (Ok df, tr ++ [ms_path])).
  { unfold load_ms_data, io_bind, table, io_lift, load_from.
    rewrite Hopen, Hrun. cbn [rbind].
    rewrite (truthy_Some Hfc), (flat_flags_colnames t corr_idx fc Hflags).
    cbn [andb].
    rewrite rbind_assoc, (flat_flags_mask t corr_idx fc Hflags).
    cbn [rbind].
    rewrite mask_all_ok by (now rewrite length_map). cbn [rbind].
    fold df. now rewrite (@mk_DataFrame_ok V _ df Hall). }
  assert (Hdf : df_len df = count_occ bool_dec flags false).
  { destruct usecols as [| c0 rest]; [congruence |].
    assert (Hin : dict_get df c0 <> None).
    { unfold df. rewrite dict_get_map, Hget. simpl.
      rewrite String.eqb_refl. simpl.
      destruct (Hcols c0 (or_introl eq_refl)) as [s0 [Hs0 _]].
      destruct (str_in c0 rest); unfold fetched; rewrite Hs0; discriminate. }
    destruct df as [| [k0 s0] df']; [now elim Hin |].
    inversion Hall; subst. assumption. }
  exists df. split; [exact Hload | split; [exact Hdf |]].
  intros Hflagged. unfold df_empty.
  destruct df; [reflexivity |].
  rewrite Hdf, (count_occ_all_flagged flags Hflagged). reflexivity.
Qed.

End LoadMore.

(** UVW is no column of the demonstration set, and DATA has two
    correlations only. *)
Lemma load_ms_data_raises_on_bad_column_witness :
  (exists e,
      load_ms_data Demo.env "/w/obs.ms" ["TIME"; "UVW"] None None []
      = (Raise e, [] ++ ["/w/obs.ms"])
      /\ (e = RuntimeError \/ e = IndexError))
  /\ (exists e,
         load_ms_data Demo.env "/w/obs.ms" ["DATA"] (Some 2) None []
         = (Raise e, [] ++ ["/w/obs.ms"])
         /\ (e = RuntimeError \/ e = IndexError)).
Proof.
  split.
  - apply (@load_ms_data_raises_on_bad_column Z Demo.env "/w/obs.ms"
             Demo.main_table ["TIME"; "UVW"] None None [] "UVW").
    + reflexivity.
    + right. left. reflexivity.
    + left. reflexivity.
  - apply (@load_ms_data_raises_on_bad_column Z Demo.env "/w/obs.ms"
             Demo.main_table ["DATA"] (Some 2) None [] "DATA").
    + reflexivity.
    + left. reflexivity.
    + right.
      exists (mk_ndarray [2; 2; 2] [1; 2; 3; 4; 5; 6; 7; 8]%Z),
        (Some [2; 2]), 2, 2, 2, 2.
      repeat split; reflexivity.
Defined.

(** TIME requested twice with ANTENNA1: two columns. *)
Lemma load_ms_data_frame_columns_witness :
  (forall c,
      In c (map fst [("TIME", ValSeries [100; 200]%Z);
                     ("ANTENNA1", IntSeries Z [0; 1]%Z)])
      <-> In c ["TIME"; "ANTENNA1"; "TIME"])
  /\ NoDup ["TIME"; "ANTENNA1"].
Proof.
  destruct (@load_ms_data_frame_columns Z Demo.env "/w/obs.ms"
              ["TIME"; "ANTENNA1"; "TIME"] None None []
              [("TIME", ValSeries [100; 200]%Z);
               ("ANTENNA1", IntSeries Z [0; 1]%Z)] ["/w/obs.ms"] eq_refl)
    as (Hkeys & Hnd & _).
  split; [exact Hkeys | exact Hnd].
Defined.

(** TIME has two samples, the whole FLAG array eight. *)
Lemma flag_mask_length_mismatch_raises_witness :
  load_ms_data Demo.env "/w/obs.ms" ["TIME"] None (Some "FLAG") []
  = (Raise IndexError, [] ++ ["/w/obs.ms"]).
Proof.
  apply (@flag_mask_length_mismatch_raises Z Demo.env "/w/obs.ms"
           Demo.main_table ["TIME"] None "FLAG"
           [false; true; false; true; false; false; true; false] []
           "TIME" (ValSeries [100; 200]%Z)).
  - reflexivity.
  - discriminate.
  - reflexivity.
  - intros c [<- | []]. eexists. reflexivity.
  - left. reflexivity.
  - reflexivity.
  - simpl. discriminate.
Defined.

(** The mask at one correlation has four entries, FLAG kept whole has
    eight. *)
Lemma flag_column_with_slice_raises_witness :
  load_ms_data Demo.env "/w/obs.ms" ["DATA"; "FLAG"] (Some 0) (Some "FLAG") []
  = (Raise IndexError, [] ++ ["/w/obs.ms"]).
Proof.
  apply (@flag_column_with_slice_raises Z Demo.env "/w/obs.ms"
           Demo.main_table ["DATA"; "FLAG"] 0
           (mk_ndarray [2; 2; 2]
              [false; true; false; true; false; false; true; false])
           (Some [2; 2]) 2 2 2 []).
  - reflexivity.
  - reflexivity.
  - reflexivity.
  - reflexivity.
  - lia.
  - lia.
  - lia.
  - right. left. reflexivity.
  - intros c [<- | [<- | []]]; eexists; reflexivity.
Defined.

(** The set whose two samples are flagged: no row is left. *)
Lemma masked_frame_counts_unflagged_witness :
  exists df,
    load_ms_data Demo.env "/w/flagged.ms" ["TIME"] None (Some "FLAG") []
    = (Ok df, [] ++ ["/w/flagged.ms"])
    /\ df_len df = count_occ bool_dec [true; true] false
    /\ (forallb (fun b => b) [true; true] = true -> df_empty df = true).
Proof.
  apply (@masked_frame_counts_unflagged Z Demo.env "/w/flagged.ms"
           Demo.flagged_table ["TIME"] None "FLAG" [true; true] []).
  - reflexivity.
  - discriminate.
  - reflexivity.
  - discriminate.
  - intros c [<- | []]. eexists. split; reflexivity.
Defined.

(** ** [load_ms_columns] and the fallback of the labels *)

Section LabelMore.

Variable V : Type.

(** X7: [load_ms_columns] never returns.  It opens the table, one
    [table(...)] call, and raises: RuntimeError when the table cannot be
    opened, and TypeError when it can, at [t.coldesc()], which
    python-casacore cannot call without a column name.  Neither the column
    names nor the shapes of the visibility columns come back. *)
Theorem load_ms_columns_never_returns :
  forall (env : Env V) ms_path tr,
    (forall t,
        open_table env ms_path = Some t ->
        load_ms_columns env ms_path tr
        = (Raise TypeError, tr ++ [ms_path]))
    /\ (open_table env ms_path = None ->
        load_ms_columns env ms_path tr
        = (Raise RuntimeError, tr ++ [ms_path]))
    /\ (forall r tr',
           load_ms_columns env ms_path tr = (r, tr') ->
           (r = Raise TypeError \/ r = Raise RuntimeError)
           /\ tr' = tr ++ [ms_path]).
Proof.
  intros env ms_path tr. rewrite load_ms_columns_eq.
  split; [| split].
  - intros t Hopen. now rewrite Hopen.
  - intros Hopen. now rewrite Hopen.
  - intros r tr' H. injection H as <- <-.
    destruct (open_table env ms_path); auto.
Qed.

(** X8: the [except] branch of [get_corr_labels] gives no labels.  When
    the POLARIZATION subtable cannot be opened, or has no CORR_TYPE column,
    or that column has no first row of integer codes, the fallback calls
    [load_ms_columns], which raises, and [get_corr_labels] raises with it:
    TypeError when the main table opens, RuntimeError when it does not,
    after both tables were tried. *)
Theorem get_corr_labels_fallback_raises :
  forall (env : Env V) ms_path vis_col tr,
    let pol := path_join ms_path "POLARIZATION" in
    open_table env pol = None
    \/ (exists tp, open_table env pol = Some tp
                   /\ exists e, (c <- getcol tp "CORR_TYPE" ;;
                                 first_row c)%res = Raise e) ->
    get_corr_labels env ms_path vis_col tr
    = (Raise (match open_table env ms_path with
              | Some _ => TypeError
              | None => RuntimeError
              end), tr ++ [pol] ++ [ms_path]).
Proof.
  intros env ms_path vis_col tr pol Hpol.
  assert (Hexn : exists e,
             (t <- table env pol ;;
              io_lift (c <- getcol t "CORR_TYPE" ;;
                       corr_types <- first_row c ;;
                       Ok (map corr_label corr_types))%res)%io tr
             = (Raise e, tr ++ [pol])).
  { unfold io_bind, table, io_lift.
    destruct Hpol as [Hnone | (tp & Hsome & e & He)].
    - rewrite Hnone. eexists. reflexivity.
    - rewrite Hsome.
      destruct (getcol tp "CORR_TYPE") as [c |] eqn:Hc; cbn [rbind] in *.
      + destruct (first_row c); cbn [rbind]; [discriminate |].
        eexists. reflexivity.
      + eexists. reflexivity. }
  destruct Hexn as [e He].
  unfold get_corr_labels, io_try. fold pol. rewrite He.
  unfold io_bind. rewrite load_ms_columns_eq.
  now rewrite <- app_assoc.
Qed.

Lemma corr_label_default (c : Z) :
  (c < 5 \/ 12 < c)%Z -> corr_label c = str_of_Z c.
Proof.
  intros H. unfold corr_label, CORR_MAP. cbn [find fst].
  repeat match goal with
         | |- context [Z.eqb ?a c] =>
             destruct (Z.eqb_spec a c); [lia |]
         end.
  reflexivity.
Qed.

(** X9: correlation codes outside 5 .. 12 (the Stokes codes 1 .. 4, for
    one) have no name in CORR_MAP: their labels are the codes written in
    decimal, in the order of the table. *)
Theorem get_corr_labels_unnamed_codes :
  forall (env : Env V) ms_path vis_col t d r n cs tr,
    open_table env (path_join ms_path "POLARIZATION") = Some t ->
    dict_get t "CORR_TYPE" = Some (mk_col d (IntCol V (mk_ndarray [r; n] cs))) ->
    0 < r ->
    Forall (fun c => (c < 5 \/ 12 < c)%Z) (firstn n cs) ->
    get_corr_labels env ms_path vis_col tr
    = (Ok (map str_of_Z (firstn n cs)),
       tr ++ [path_join ms_path "POLARIZATION"]).
Proof.
  intros env ms_path vis_col t d r n cs tr Hopen Hcol Hr Hcodes.
  unfold get_corr_labels. apply io_try_ok.
  unfold io_bind, table, io_lift, getcol. rewrite Hopen, Hcol.
  cbn [rbind contents first_row shape].
  destruct r as [| r]; [lia |]. cbn [Nat.eqb rbind]. do 2 f_equal.
  apply map_ext_in. intros c Hc. apply corr_label_default.
  rewrite Forall_forall in Hcodes. now apply Hcodes.
Qed.

End LabelMore.

(** The demonstration set opens, [ghost.ms] does not. *)
Lemma load_ms_columns_never_returns_witness :
  load_ms_columns Demo.env "/w/obs.ms" []
  = (Raise TypeError, [] ++ ["/w/obs.ms"])
  /\ load_ms_columns Demo.env "/w/ghost.ms" []
     = (Raise RuntimeError, [] ++ ["/w/ghost.ms"]).
Proof.
  split.
  - destruct (@load_ms_columns_never_returns Z Demo.env "/w/obs.ms" [])
      as [Hok _].
    apply (Hok Demo.main_table). reflexivity.
  - destruct (@load_ms_columns_never_returns Z Demo.env "/w/ghost.ms" [])
      as (_ & Hnone & _).
    apply Hnone. reflexivity.
Defined.

(** The set without rows has no POLARIZATION subtable: no labels. *)
Lemma get_corr_labels_fallback_raises_witness :
  get_corr_labels Demo.env "/w/empty.ms" "DATA" []
  = (Raise TypeError,
     [] ++ ["/w/empty.ms/POLARIZATION"] ++ ["/w/empty.ms"]).
Proof.
  apply (@get_corr_labels_fallback_raises Z Demo.env "/w/empty.ms" "DATA"
           []).
  left. reflexivity.
Defined.

(** Stokes codes in a table of the demonstration directory. *)
Lemma get_corr_labels_unnamed_codes_witness :
  get_corr_labels
    (mk_env (listdir Demo.env) (isdir Demo.env) (path_exists Demo.env)
       (abspath Demo.env)
       (fun p => if String.eqb p "/w/stokes.ms/POLARIZATION"
                 then Some [("CORR_TYPE",
                             mk_col None
                               (IntCol Z (mk_ndarray [1; 4] [1; 2; 3; 4]%Z)))]
                 else None))
    "/w/stokes.ms" "DATA" []
  = (Ok ["1"; "2"; "3"; "4"], [] ++ ["/w/stokes.ms/POLARIZATION"]).
Proof.
  apply (@get_corr_labels_unnamed_codes Z _ "/w/stokes.ms" "DATA"
           [("CORR_TYPE",
             mk_col None (IntCol Z (mk_ndarray [1; 4] [1; 2; 3; 4]%Z)))]
           None 1 4 [1; 2; 3; 4]%Z []).
  - reflexivity.
  - reflexivity.
  - lia.
  - repeat constructor; lia.
Defined.

(** ** The correlation selector *)

Lemma index_of_spec (x : string) (l : list string) :
  (In x l ->
   exists i, index_of x l = Ok i
             /\ nth_error l i = Some x
             /\ ~ In x (firstn i l))
  /\ (~ In x l -> index_of x l = Raise ValueError).
Proof.
  induction l as [| y l [IHin IHout]]; simpl.
  - split; [intros [] | reflexivity].
  - destruct (String.eqb y x) eqn:E.
    + apply String.eqb_eq in E. subst y. split.
      * intros _. exists 0. simpl. auto.
      * intros H. elim H. now left.
    + apply String.eqb_neq in E. split.
      * intros [H | H]; [contradiction |].
        destruct (IHin H) as [i [Hi [Hnth Hfirst]]].
        exists (S i). rewrite Hi. simpl. repeat split; try assumption.
        intros [H' | H']; [contradiction | now apply Hfirst].
      * intros H. rewrite IHout; [reflexivity |].
        intros H'. apply H. now right.
Qed.

(** X10: the correlation index [run_plot] uses is the position of the
    first occurrence of the first selected label among the options of the
    selector; a first selected label that is no option raises ValueError;
    a hidden selector or an empty selection gives no index. *)
Theorem corr_index_is_first_position :
  forall sc : MultiSelect,
    (forall u0 rest,
        visible sc = true -> m_value sc = u0 :: rest ->
        (In u0 (m_options sc) ->
         exists i, corr_index sc = Ok (Some i)
                   /\ nth_error (m_options sc) i = Some u0
                   /\ ~ In u0 (firstn i (m_options sc)))
        /\ (~ In u0 (m_options sc) -> corr_index sc = Raise ValueError))
    /\ (visible sc = false \/ m_value sc = [] -> corr_index sc = Ok None).
Proof.
  intros sc. split.
  - intros u0 rest Hvis Hval. unfold corr_index, used_corr.
    rewrite Hvis, Hval.
    destruct (index_of_spec u0 (m_options sc)) as [Hin Hout]. split.
    + intros H. destruct (Hin H) as [i [Hi Hrest]].
      exists i. now rewrite Hi.
    + intros H. now rewrite (Hout H).
  - intros [H | H]; unfold corr_index, used_corr; rewrite H;
      [reflexivity | now destruct (visible sc)].
Qed.

Lemma corr_index_is_first_position_witness :
  exists i,
    corr_index (mk_multi ["RR"; "LL"; "RR"] ["LL"; "RR"] true) = Ok (Some i)
    /\ nth_error ["RR"; "LL"; "RR"] i = Some "LL"
    /\ ~ In "LL" (firstn i ["RR"; "LL"; "RR"]).
Proof.
  destruct (corr_index_is_first_position
              (mk_multi ["RR"; "LL"; "RR"] ["LL"; "RR"] true)) as [H _].
  apply (H "LL" ["RR"] eq_refl eq_refl). right. left. reflexivity.
Defined.

Section SelectorMore.

Variable V : Type.
Variable Image : Type.
Variable Scalar : Type.
Variable env : Env V.

Lemma subset_of_In (a b : list string) :
  subset_of a b = true -> forall u, In u a -> In u b.
Proof.
  unfold subset_of. rewrite forallb_forall. intros H u Hu.
  now apply str_in_In, H.
Qed.

(** X11: when [update_corr_visibility] returns, the selector is either
    hidden with no option and no selection, or shown with a selection that
    is not empty and lies within its options -- so the next [run_plot]
    finds its correlation index. *)
Theorem update_corr_visibility_selection :
  forall s s' : State Image Scalar,
    update_corr_visibility env s = Returned s' ->
    let sc := select_corr s' in
    ((visible sc = false /\ m_options sc = [] /\ m_value sc = [])
     \/ (visible sc = true /\ m_value sc <> []
         /\ forall u, In u (m_value sc) -> In u (m_options sc)))
    /\ exists ci, corr_index sc = Ok ci.
Proof.
  intros s s' Hrun sc.
  assert (Hsel :
            (visible sc = false /\ m_options sc = [] /\ m_value sc = [])
            \/ (visible sc = true /\ m_value sc <> []
                /\ forall u, In u (m_value sc) -> In u (m_options sc))).
  { unfold sc. revert Hrun. unfold update_corr_visibility, run_io.
    destruct (has_key (vis_colinfo s) (value (select_x s))
              || has_key (vis_colinfo s) (value (select_y s))) eqn:Hany.
    - cbn [selected_ms set_select_corr].
      destruct (selected_ms s) as [p |]; [| discriminate].
      destruct (if has_key (vis_colinfo s) (value (select_x s))
                then value (select_x s) else value (select_y s))
        as [vc |]; [| discriminate].
      destruct (get_corr_labels env p vc _) as [[labels | e] tr];
        [| discriminate].
      destruct (m_value (select_corr s)) as [| u0 rest] eqn:Hval;
        cbn [is_nil orb].
      + destruct labels as [| l0 labels]; [discriminate |].
        intros H. injection H as <-. right. simpl.
        repeat split; [discriminate |].
        intros u [<- | []]. now left.
      + destruct (subset_of (u0 :: rest) labels) eqn:Hsub; cbn [negb].
        * intros H. injection H as <-. right. simpl.
          repeat split; [discriminate |].
          intros u Hu. exact (subset_of_In (u0 :: rest) labels Hsub u Hu).
        * destruct labels as [| l0 labels]; [discriminate |].
          intros H. injection H as <-. right. simpl.
          repeat split; [discriminate |].
          intros u [<- | []]. now left.
    - intros H. injection H as <-. left. simpl. auto. }
  split; [exact Hsel |].
  destruct Hsel as [(Hvis & _ & _) | (Hvis & Hne & Hin)].
  - exists None. unfold corr_index, used_corr. now rewrite Hvis.
  - destruct (m_value sc) as [| u0 rest] eqn:Hval; [congruence |].
    destruct (index_of_spec u0 (m_options sc)) as [Hfound _].
    destruct (Hfound (Hin u0 (or_introl eq_refl))) as [i [Hi _]].
    exists (Some i). unfold corr_index, used_corr.
    now rewrite Hvis, Hval, Hi.
Qed.

End SelectorMore.

(** Both axes on DATA, known as a visibility column, with a selection (XX)
    that is no label of the set: the selection becomes the first label.
    And the state after [obs.ms] was chosen, where no column is known as a
    visibility column: the selector is hidden and empty. *)
Lemma update_corr_visibility_selection_witness :
  (exists s',
      update_corr_visibility Demo.env
        (set_select_corr (mk_multi [] ["XX"] false) Demo.two_corrs)
      = Returned s'
      /\ m_value (select_corr s') = ["RR"]
      /\ exists ci, corr_index (select_corr s') = Ok ci)
  /\ (exists s',
         update_corr_visibility Demo.env
           (set_select_corr (mk_multi [] ["XX"] false)
              (Demo.with_axes "DATA" "DATA" (Demo.chosen "obs.ms")))
         = Returned s'
         /\ select_corr s' = mk_multi [] [] false
         /\ exists ci, corr_index (select_corr s') = Ok ci).
Proof.
  split.
  - eexists. split; [vm_compute; reflexivity |].
    split; [reflexivity |].
    apply (@update_corr_visibility_selection Z Demo.Image Z Demo.env
             (set_select_corr (mk_multi [] ["XX"] false) Demo.two_corrs)).
    vm_compute. reflexivity.
  - eexists. split; [vm_compute; reflexivity |].
    split; [reflexivity |].
    apply (@update_corr_visibility_selection Z Demo.Image Z Demo.env
             (set_select_corr (mk_multi [] ["XX"] false)
                (Demo.with_axes "DATA" "DATA" (Demo.chosen "obs.ms")))).
    vm_compute. reflexivity.
Defined.

(** ** Choosing a Measurement Set and refreshing the list *)

Section ChoiceMore.

Variable V : Type.
Variable Image : Type.
Variable Scalar : Type.
Variable shade : DataFrame V -> string -> string -> Image.
Variable col_min : series V -> Scalar.
Variable col_max : series V -> Scalar.
Variable scalar_sub : Scalar -> Scalar -> Scalar.
Variable env : Env V.

Local Abbreviation plot := (run_plot shade col_min col_max scalar_sub env).

Lemma but_corr_eq_rest (s s' : State Image Scalar) :
  but_corr s = but_corr s' ->
  ms_select s = ms_select s'
  /\ plot_button_disabled s = plot_button_disabled s'
  /\ export_button_disabled s = export_button_disabled s'
  /\ status_div s = status_div s' /\ outfig s = outfig s'
  /\ exported s = exported s'.
Proof.
  destruct s, s'; unfold but_corr; simpl. intros H. injection H.
  intros; subst. repeat split.
Qed.

(** X12: a selected path whose table cannot be opened makes [ms_chosen]
    raise RuntimeError after it has recorded the path as the selected
    Measurement Set: status text, axis options, buttons and figure are as
    before, and [run_plot], run on the state it leaves, raises
    RuntimeError as well. *)
Theorem ms_chosen_unopenable_table :
  forall (s : State Image Scalar) v,
    value (ms_select s) = Some v -> v <> "" ->
    open_table env (abspath env v) = None ->
    let p := abspath env v in
    let s' := set_trace (trace s ++ [p]) (set_selected_ms (Some p) s) in
    ms_chosen env s = Raised RuntimeError s'
    /\ (forall xcol ycol ci,
           p <> "" ->
           value (select_x s) = Some xcol ->
           value (select_y s) = Some ycol ->
           corr_index (select_corr s) = Ok ci ->
           plot s' = Raised RuntimeError (set_trace (trace s' ++ [p]) s')).
Proof.
  intros s v Hval Hv Hopen p s'. split.
  - unfold ms_chosen. rewrite Hval, (truthy_Some Hv).
    unfold run_io. rewrite load_ms_columns_eq, Hopen.
    reflexivity.
  - intros xcol ycol ci Hp Hx Hy Hci. unfold run_plot.
    change (selected_ms s') with (Some p). rewrite (truthy_Some Hp).
    cbn [negb]. change (select_corr s') with (select_corr s).
    change (select_x s') with (select_x s).
    change (select_y s') with (select_y s).
    rewrite Hci, Hx, Hy. unfold run_io, load_ms_data, io_bind, table.
    unfold p. rewrite Hopen. reflexivity.
Qed.

(** X13: choosing a Measurement Set never gets through.  For every
    non-empty selection [ms_chosen] records the path and raises, TypeError
    when the table opens and RuntimeError when it does not, before it sets
    an axis option or enables a button.  So after any sequence of user
    events the Plot and Export buttons are still disabled, the status
    line is empty, the figure is the empty figure of the start and nothing
    was exported. *)
Theorem ms_chosen_never_returns :
  (forall (s : State Image Scalar) v,
      value (ms_select s) = Some v -> v <> "" ->
      exists e,
        (e = TypeError \/ e = RuntimeError)
        /\ ms_chosen env s
           = Raised e
               (set_trace (trace s ++ [abspath env v])
                  (set_selected_ms (Some (abspath env v)) s)))
  /\ (forall evs,
         let s := run shade col_min col_max scalar_sub env
                    (state_of (bokeh_app Image Scalar env)) evs in
         plot_button_disabled s = true
         /\ export_button_disabled s = true
         /\ status_div s = ""
         /\ outfig s = mk_figure "Scribble Plot" (empty_render Image Scalar)
         /\ exported s = []).
Proof.
  split.
  - intros s v Hval Hv. rewrite (ms_chosen_raises env s Hval Hv).
    destruct (open_table env (abspath env v)); eexists; split;
      try reflexivity; auto.
  - intros evs s.
    destruct (run_idle shade col_min col_max scalar_sub env evs _
                (bokeh_app_idle Image Scalar env))
      as (_ & _ & _ & _ & _ & _ & _ & _ & _ & Hp & He & Hst & Hfig & Hex).
    repeat split; assumption.
Qed.

(** X14: Refresh, when the working directory can be listed, offers the
    candidates found, selects none, empties the axis options, disables
    Plot and Export, and blanks the status text and the figure; it keeps
    the path that was selected; and a second Refresh changes nothing. *)
Theorem update_ms_list_resets :
  forall (s : State Image Scalar) dirs,
    list_possible_ms_dirs env "." = Ok dirs ->
    exists s',
      update_ms_list env s = Returned s'
      /\ ms_select s' = mk_select dirs None
      /\ axis_opts s' = [] /\ options (select_x s') = []
      /\ options (select_y s') = []
      /\ options (select_group s') = ["None"]
      /\ plot_button_disabled s' = true
      /\ export_button_disabled s' = true
      /\ status_div s' = ""
      /\ outfig s' = mk_figure "Scribble Plot" (empty_render Image Scalar)
      /\ selected_ms s' = selected_ms s
      /\ update_ms_list env s' = Returned s'.
Proof.
  intros s dirs Hls.
  assert (Hassign :
            forall s0 : State Image Scalar,
              assign_ms env None s0
              = Returned (set_ms_select
                            (mk_select (options (ms_select s0)) None) s0)).
  { intros s0. unfold assign_ms, ms_chosen.
    destruct (opt_eqb (value (ms_select s0)) None); reflexivity. }
  eexists. split.
  - unfold update_ms_list. rewrite Hls, Hassign. reflexivity.
  - do 10 (split; [reflexivity |]).
    unfold update_ms_list. rewrite Hls, Hassign.
    destruct s. vm_compute. reflexivity.
Qed.

End ChoiceMore.

Lemma ms_chosen_unopenable_table_witness :
  let s' := set_trace (trace Demo.ghost_picked ++ ["/w/ghost.ms"])
              (set_selected_ms (Some "/w/ghost.ms") Demo.ghost_picked) in
  ms_chosen Demo.env Demo.ghost_picked = Raised RuntimeError s'
  /\ status_div s' = ""
  /\ run_plot Demo.shade Demo.col_min Demo.col_max Z.sub Demo.env s'
     = Raised RuntimeError (set_trace (trace s' ++ ["/w/ghost.ms"]) s').
Proof.
  destruct (@ms_chosen_unopenable_table Z Demo.Image Z Demo.shade
              Demo.col_min Demo.col_max Z.sub Demo.env Demo.ghost_picked
              "ghost.ms") as [Hraise Hplot].
  - vm_compute. reflexivity.
  - discriminate.
  - vm_compute. reflexivity.
  - split; [exact Hraise |]. split; [vm_compute; reflexivity |].
    apply (Hplot "TIME" "ANTENNA1" None).
    + discriminate.
    + vm_compute. reflexivity.
    + vm_compute. reflexivity.
    + vm_compute. reflexivity.
Defined.

(** [obs.ms] is chosen, the axes are set from the browser, and Plot and
    Export are clicked: nothing has happened. *)
Lemma ms_chosen_never_returns_witness :
  (exists e,
      (e = TypeError \/ e = RuntimeError)
      /\ ms_chosen Demo.env Demo.obs_picked
         = Raised e
             (set_trace (trace Demo.obs_picked ++ [abspath Demo.env "obs.ms"])
                (set_selected_ms (Some (abspath Demo.env "obs.ms"))
                   Demo.obs_picked)))
  /\ exported
       (run Demo.shade Demo.col_min Demo.col_max Z.sub Demo.env
          (state_of (bokeh_app Demo.Image Z Demo.env))
          [PickMs (Some "obs.ms"); PickX (Some "TIME");
           PickY (Some "ANTENNA1"); ClickPlot; ClickExport])
     = [].
Proof.
  destruct (@ms_chosen_never_returns Z Demo.Image Z Demo.shade Demo.col_min
              Demo.col_max Z.sub Demo.env) as [Hraise Hreach].
  split.
  - apply (Hraise Demo.obs_picked "obs.ms"); [reflexivity | discriminate].
  - apply (Hreach [PickMs (Some "obs.ms"); PickX (Some "TIME");
                   PickY (Some "ANTENNA1"); ClickPlot; ClickExport]).
Defined.

Lemma update_ms_list_resets_witness :
  exists s',
    update_ms_list Demo.env (Demo.chosen "obs.ms") = Returned s'
    /\ ms_select s' = mk_select Demo.ms_dirs None
    /\ plot_button_disabled s' = true
    /\ selected_ms s' = Some "/w/obs.ms"
    /\ update_ms_list Demo.env s' = Returned s'.
Proof.
  destruct (@update_ms_list_resets Z Demo.Image Z Demo.env
              (Demo.chosen "obs.ms") Demo.ms_dirs)
    as (s' & Hrun & Hms & _ & _ & _ & _ & Hp & _ & _ & _ & Hsel & Hagain).
  - vm_compute. reflexivity.
  - exists s'. repeat split; assumption.
Defined.

(** ** What holds in every state the user can reach (current version) *)

Section ReachMore.

Variable V : Type.
Variable Image : Type.
Variable Scalar : Type.
Variable shade : DataFrame V -> string -> string -> Image.
Variable col_min : series V -> Scalar.
Variable col_max : series V -> Scalar.
Variable scalar_sub : Scalar -> Scalar -> Scalar.
Variable env : Env V.

Local Abbreviation plot := (run_plot shade col_min col_max scalar_sub env).
Local Abbreviation step' := (step shade col_min col_max scalar_sub env).
Local Abbreviation run' := (run shade col_min col_max scalar_sub env).
Local Abbreviation start := (state_of (bokeh_app Image Scalar env)).


End ReachMore.


Section InvariantMore.

Variable V : Type.
Variable Image : Type.
Variable Scalar : Type.
Variable shade : DataFrame V -> string -> string -> Image.
Variable col_min : series V -> Scalar.
Variable col_max : series V -> Scalar.
Variable scalar_sub : Scalar -> Scalar -> Scalar.
Variable env : Env V.

Local Abbreviation State' := (State Image Scalar).
Local Abbreviation plot := (run_plot shade col_min col_max scalar_sub env).
Local Abbreviation step' := (step shade col_min col_max scalar_sub env).
Local Abbreviation run' := (run shade col_min col_max scalar_sub env).
Local Abbreviation start := (state_of (bokeh_app Image Scalar env)).

(** The path selected and the status text, carried along a callback. *)
Local Abbreviation kept p txt :=
  (fun s1 : State' => selected_ms s1 = Some p /\ status_div s1 = txt).

Lemma and_then_carries (R : State' -> Prop) (o : outcome Image Scalar)
  (k : State' -> outcome Image Scalar) :
  R (state_of o) ->
  (forall s1, R s1 -> R (state_of (k s1))) ->
  R (state_of (and_then o k)).
Proof.
  destruct o; simpl; auto.
Qed.

Lemma update_corr_visibility_carries p txt (s : State') :
  kept p txt s -> kept p txt (state_of (update_corr_visibility env s)).
Proof.
  intros [H1 H2].
  pose proof (update_corr_visibility_frame env s) as F.
  destruct (but_corr_eq F) as (A & _).
  destruct (but_corr_eq_rest F) as (_ & _ & _ & B & _).
  split; congruence.
Qed.

Lemma assign_x_carries p txt v (s : State') :
  kept p txt s -> kept p txt (state_of (assign_x env v s)).
Proof.
  intros [H1 H2].
  pose proof (assign_x_frame env v s) as F.
  destruct (but_corr_eq F) as (A & _).
  destruct (but_corr_eq_rest F) as (_ & _ & _ & B & _).
  simpl in A, B. split; congruence.
Qed.

Lemma assign_y_carries p txt v (s : State') :
  kept p txt s -> kept p txt (state_of (assign_y env v s)).
Proof.
  intros [H1 H2].
  pose proof (assign_y_frame env v s) as F.
  destruct (but_corr_eq F) as (A & _).
  destruct (but_corr_eq_rest F) as (_ & _ & _ & B & _).
  simpl in A, B. split; congruence.
Qed.

(** [ms_chosen] leaves the status text; it leaves the selected path and
    the Plot button, or records the absolute path of the choice. *)
Lemma ms_chosen_selected (s : State') :
  status_div (state_of (ms_chosen env s)) = status_div s
  /\ ((selected_ms (state_of (ms_chosen env s)) = selected_ms s
       /\ plot_button_disabled (state_of (ms_chosen env s))
          = plot_button_disabled s)
      \/ exists v, selected_ms (state_of (ms_chosen env s))
                   = Some (abspath env v)).
Proof.
  unfold ms_chosen.
  destruct (truthy (value (ms_select s))); [| simpl; auto].
  destruct (value (ms_select s)) as [v |]; [| simpl; auto].
  match goal with
  | |- status_div (state_of ?X) = _ /\ _ =>
      cut (kept (abspath env v) (status_div s) (state_of X))
  end.
  { intros [H1 H2]. split; [exact H2 | right; now exists v]. }
  cbv zeta. unfold run_io.
  destruct (load_ms_columns env (abspath env v) _) as [[[cols vi] | e] tr];
    [| split; reflexivity].
  destruct (axis_options cols) as [| a0 opts]; [split; reflexivity |].
  apply and_then_carries.
  { apply assign_x_carries. split; reflexivity. }
  intros s5 H5.
  destruct (nth_error (a0 :: opts) 1); [| exact H5].
  apply and_then_carries.
  { apply assign_y_carries. exact H5. }
  intros s7 H7.
  apply and_then_carries.
  { apply update_corr_visibility_carries. exact H7. }
  intros s9 H9. exact H9.
Qed.

Lemma run_plot_keeps_selection (s : State') :
  selected_ms (state_of (plot s)) = selected_ms s
  /\ plot_button_disabled (state_of (plot s)) = plot_button_disabled s.
Proof.
  unfold run_plot, run_io. destruct s; simpl. split; split_matches.
Qed.

Lemma run_plot_status (s : State') p :
  selected_ms s = Some p -> p <> "" ->
  status_div (state_of (plot s)) = status_div s
  \/ status_div (state_of (plot s)) = no_data_msg
  \/ exists df : DataFrame V,
       status_div (state_of (plot s)) = plotted_msg df.
Proof.
  intros Hsel Hp. unfold run_plot, run_io.
  rewrite Hsel, (truthy_Some Hp). cbn [negb].
  destruct s; simpl in *.
  repeat (match goal with
          | |- context [load_ms_data ?e ?q ?u ?c ?f ?t] =>
              destruct (load_ms_data e q u c f t) eqn:?
          | |- context [table ?e ?q ?t] => destruct (table e q t) eqn:?
          | |- context [match ?x with _ => _ end] => destruct x eqn:?
          end; simpl in *; try (left; reflexivity);
          try (right; left; reflexivity);
          try (right; right; eexists; reflexivity)).
Qed.


End InvariantMore.


(** ** The packaged build: loading, plotting and exporting *)

Section BuildMore.

Variable V : Type.
Variable Image : Type.
Variable Scalar : Type.
Variable shade : DataFrame V -> string -> string -> Image.
Variable col_min : series V -> Scalar.
Variable col_max : series V -> Scalar.
Variable scalar_sub : Scalar -> Scalar -> Scalar.
Variable exn_text : exn -> string.
Variable env : Env V.

Local Abbreviation Controls' := (Build.Controls Image Scalar).
Local Abbreviation BState := (Build.State Image Scalar).
Local Abbreviation build_plot :=
  (Build.run_plot shade col_min col_max scalar_sub exn_text env).

Lemma index_of_raises (x : string) (l : list string) e :
  index_of x l = Raise e -> e = ValueError /\ ~ In x l.
Proof.
  intros H. destruct (index_of_spec x l) as [Hin Hout].
  destruct (in_dec string_dec x l) as [Hx | Hx].
  - destruct (Hin Hx) as [i [Hi _]]. congruence.
  - rewrite (Hout Hx) in H. injection H as <-. now split.
Qed.

Lemma corr_index_raises (sc : MultiSelect) e :
  corr_index sc = Raise e ->
  e = ValueError
  /\ exists u0 rest, visible sc = true /\ m_value sc = u0 :: rest
                     /\ ~ In u0 (m_options sc).
Proof.
  unfold corr_index, used_corr.
  destruct (visible sc); [| discriminate].
  destruct (m_value sc) as [| u0 rest]; [discriminate |].
  destruct (index_of u0 (m_options sc)) as [i | e0] eqn:E; cbn [rbind];
    [discriminate |].
  intros H. injection H as <-.
  destruct (index_of_raises _ _ E) as [-> Hnot].
  split; [reflexivity |]. now exists u0, rest.
Qed.


(** What Load leaves: the layout and the exports as they were, or, for a
    path that fails the test, an empty layout. *)
Lemma build_on_load_layout (s : BState) :
  let s' := Build.state_of (Build.on_load env s) in
  (Build.plot_layout s' = Build.plot_layout s \/ Build.plot_layout s' = [])
  /\ Build.exported s' = Build.exported s.
Proof.
  unfold Build.on_load.
  destruct (String.eqb _ "" || negb (isdir env _)
            || negb (path_exists env _)).
  - simpl. auto.
  - rewrite load_ms_columns_eq. simpl. auto.
Qed.

(** X18: the build never shows plot controls.  Whatever is typed and
    clicked, [plot_layout] has no children and nothing is exported: Load
    rejects the path or raises in [load_ms_columns], before the controls
    are put on display at line 192, and without controls there is no
    selector to change and no Plot or Export button to click. *)
Theorem build_never_shows_controls :
  forall evs,
    let s := Build.run shade col_min col_max scalar_sub exn_text env
               (Build.bokeh_app Image Scalar) evs in
    Build.plot_layout s = [] /\ Build.exported s = [].
Proof.
  intros evs.
  assert (Hinv :
            forall s0 : BState,
              Build.plot_layout s0 = [] /\ Build.exported s0 = [] ->
              let s := Build.run shade col_min col_max scalar_sub exn_text
                         env s0 evs in
              Build.plot_layout s = [] /\ Build.exported s = []).
  { induction evs as [| ev evs IH]; intros s0 [Hlay Hex]; [now split |].
    cbn [Build.run]. apply IH.
    destruct ev; cbn [Build.step].
    - now split.
    - destruct (build_on_load_layout s0) as [[H | H] H']; split; congruence.
    - unfold Build.pick_axis. rewrite Hlay. now split.
    - unfold Build.pick_axis. rewrite Hlay. now split.
    - unfold Build.pick_other. rewrite Hlay. now split.
    - unfold Build.pick_other. rewrite Hlay. now split.
    - unfold Build.click_plot. rewrite Hlay. now split.
    - unfold Build.click_export. rewrite Hlay. now split. }
  apply Hinv. now split.
Qed.

(** X19: a typed path that passes the directory test of [on_load] makes
    [on_load] raise after the status line was set to the green "Loaded"
    message: RuntimeError when the table cannot be opened, TypeError (from
    [t.coldesc()] in [load_ms_columns]) when it can.  The layout is left
    as it was. *)
Theorem build_on_load_failing_table :
  forall s : BState,
    let p := strip (Build.ms_path_input s) in
    let after :=
      Build.mk_state (Build.ms_path_input s)
        ("<b style='color:green;'>Loaded: " ++ abspath env p ++ "</b>")%string
        (Build.plot_layout s) (Build.trace s ++ [p]) (Build.exported s) in
    p <> "" -> isdir env p = true ->
    path_exists env (path_join p "TABLES") = true ->
    (open_table env p = None ->
     Build.on_load env s = Build.Raised RuntimeError after)
    /\ (forall t,
           open_table env p = Some t ->
           Build.on_load env s = Build.Raised TypeError after).
Proof.
  intros s p after Hp Hdir Htab.
  assert (Hok : String.eqb p "" || negb (isdir env p)
                || negb (path_exists env (path_join p "TABLES")) = false).
  { apply String.eqb_neq in Hp. now rewrite Hp, Hdir, Htab. }
  split.
  - intros Hopen. unfold Build.on_load. fold p. rewrite Hok.
    rewrite load_ms_columns_eq, Hopen. reflexivity.
  - intros t Hopen. unfold Build.on_load. fold p. rewrite Hok.
    rewrite load_ms_columns_eq, Hopen. reflexivity.
Qed.

End BuildMore.


(** [/w/notes] made to look like a Measurement Set, with a TABLES entry
    but no table; and [/w/obs.ms], whose table opens. *)
Lemma build_on_load_failing_table_witness :
  (let env := mk_env (listdir Demo.env) (isdir Demo.env) (fun _ => true)
                (abspath Demo.env) (open_table Demo.env) in
   Build.on_load env
     (Build.mk_state (Image := Demo.Image) (Scalar := Z) " /w/notes" "" [] []
        [])
   = Build.Raised RuntimeError
       (Build.mk_state " /w/notes"
          "<b style='color:green;'>Loaded: /w/notes</b>" [] ["/w/notes"] []))
  /\ Build.on_load Demo.env
       (Build.mk_state (Image := Demo.Image) (Scalar := Z) "/w/obs.ms " ""
          [] [] [])
     = Build.Raised TypeError
         (Build.mk_state "/w/obs.ms "
            "<b style='color:green;'>Loaded: /w/obs.ms</b>" [] ["/w/obs.ms"]
            []).
Proof.
  split.
  - intros env.
    destruct (@build_on_load_failing_table Z Demo.Image Z env
                (Build.mk_state " /w/notes" "" [] [] [])) as [Hnone _].
    + discriminate.
    + vm_compute. reflexivity.
    + reflexivity.
    + apply Hnone. vm_compute. reflexivity.
  - destruct (@build_on_load_failing_table Z Demo.Image Z Demo.env
                (Build.mk_state "/w/obs.ms " "" [] [] [])) as [_ Hsome].
    + discriminate.
    + vm_compute. reflexivity.
    + vm_compute. reflexivity.
    + apply (Hsome Demo.main_table). vm_compute. reflexivity.
Defined.

(** ** A flag column that is not boolean *)

Section IntFlags.

Variable V : Type.

Lemma item_from_end {A} (l : list A) (f : Z) :
  (0 <= f < Z.of_nat (length l))%Z ->
  exists x, nth_error (rev l) (Z.to_nat f) = Some x
            /\ item l (- f - 1) = Ok x.
Proof.
  intros Hf. unfold item.
  destruct (Z.ltb_spec (- f - 1) 0) as [_ | H]; [| lia].
  destruct (Z.leb_spec 0 (- f - 1 + Z.of_nat (length l))) as [_ | H];
    [| lia].
  destruct (Z.ltb_spec (- f - 1 + Z.of_nat (length l))
              (Z.of_nat (length l))) as [_ | H]; [| lia].
  cbn [andb]. rewrite nth_error_rev.
  destruct (Nat.ltb_spec (Z.to_nat f) (length l)) as [Hlt | H]; [| lia].
  replace (Z.to_nat (- f - 1 + Z.of_nat (length l)))
    with (length l - S (Z.to_nat f)) by lia.
  destruct (nth_error l (length l - S (Z.to_nat f))) as [x |] eqn:E.
  - now exists x.
  - apply nth_error_None in E. lia.
Qed.

Lemma int_index_from_end {A} (l : list A) (flags : list Z) :
  Forall (fun f => (0 <= f < Z.of_nat (length l))%Z) flags ->
  int_index (map (fun x => (- x - 1)%Z) flags) l = Ok (from_end flags l)
  /\ length (from_end flags l) = length flags.
Proof.
  induction 1 as [| f flags Hf _ [IH IHlen]]; [now split |].
  cbn [map int_index]. unfold from_end. cbn [flat_map].
  destruct (item_from_end l Hf) as [x [Hx Hitem]].
  rewrite Hitem, Hx. cbn [rbind]. rewrite IH. cbn [rbind].
  split; [reflexivity |]. simpl. f_equal. exact IHlen.
Qed.

Lemma series_int_index_from_end (s : series V) (flags : list Z) :
  Forall (fun f => (0 <= f < Z.of_nat (series_len s))%Z) flags ->
  series_int_index (map (fun x => (- x - 1)%Z) flags) s
  = Ok (series_from_end flags s)
  /\ series_len (series_from_end flags s) = length flags.
Proof.
  intros H. destruct s as [l | l | l]; simpl in *;
    destruct (int_index_from_end l H) as [-> Hlen]; now split.
Qed.

Lemma mask_all_int (flags : list Z) (n : nat)
  (arrs : list (string * series V)) :
  Forall (fun f => (0 <= f < Z.of_nat n)%Z) flags ->
  Forall (fun p => series_len (snd p) = n) arrs ->
  mask_all (IntSeries V (map (fun x => (- x - 1)%Z) flags)) arrs
  = Ok (map (fun p => (fst p, series_from_end flags (snd p))) arrs)
  /\ Forall (fun p => series_len (snd p) = length flags)
       (map (fun p => (fst p, series_from_end flags (snd p))) arrs).
Proof.
  intros Hf. induction 1 as [| [k s] arrs Hs _ [IH IHlen]];
    [split; [reflexivity | constructor] |].
  simpl in Hs. subst n.
  destruct (series_int_index_from_end s Hf) as [Hs Hlen].
  cbn [mask_all series_take map fst snd]. rewrite Hs. cbn [rbind].
  rewrite IH. cbn [rbind].
  split; [reflexivity |]. constructor; assumption.
Qed.

(** X22: [load_ms_data] does not test the dtype of the flag column.  A
    flag column of integers is inverted bit by bit and the result is used
    as an array of positions: with flags between 0 and the column length,
    every column of the frame holds one sample per flag, flag [f] giving
    the sample [f] places before the last -- flagged samples are not
    removed, the frame is a rearrangement.  A flag column of floats or
    complex numbers raises TypeError. *)
Theorem integer_flags_pick_from_the_end :
  forall (env : Env V) ms_path t usecols corr_idx fc tr,
    open_table env ms_path = Some t ->
    fc <> "" -> In fc (colnames t) ->
    (forall c, In c usecols -> exists s, fetch t corr_idx c = Ok s) ->
    (forall flags n,
        flags_flat t corr_idx fc = Ok (IntSeries V flags) ->
        Forall (fun f => (0 <= f < Z.of_nat n)%Z) flags ->
        (forall c s, In c usecols -> fetch t corr_idx c = Ok s ->
                     series_len s = n) ->
        exists df,
          load_ms_data env ms_path usecols corr_idx (Some fc) tr
          = (Ok df, tr ++ [ms_path])
          /\ (forall c s, In c usecols -> fetch t corr_idx c = Ok s ->
                          dict_get df c = Some (series_from_end flags s))
          /\ Forall (fun p => series_len (snd p) = length flags) df)
    /\ (forall vals,
           flags_flat t corr_idx fc = Ok (ValSeries vals) ->
           load_ms_data env ms_path usecols corr_idx (Some fc) tr
           = (Raise TypeError, tr ++ [ms_path])).
Proof.
  intros env ms_path t usecols corr_idx fc tr Hopen Hfc Hin Hcols.
  apply str_in_In in Hin.
  split.
  - intros flags n Hflags Hrange Hlen.
    destruct (@fetch_all_spec V t corr_idx (fun s => series_len s = n)
                usecols []) as [arrs [Hrun [Hall Hget]]].
    { intros c Hc. destruct (Hcols c Hc) as [s Hs]. exists s.
      split; [exact Hs | exact (Hlen c s Hc Hs)]. }
    { constructor. }
    destruct (mask_all_int Hrange Hall) as [Hmask Hlens].
    eexists. split; [| split].
    + unfold load_ms_data, io_bind, table, io_lift, load_from.
      rewrite Hopen, Hrun. cbn [rbind].
      rewrite (truthy_Some Hfc), Hin. cbn [andb].
      rewrite Hflags. cbn [rbind invert]. rewrite Hmask. cbn [rbind].
      now rewrite (@mk_DataFrame_ok V _ _ Hlens).
    + intros c s Hc Hs. rewrite dict_get_map, Hget.
      apply str_in_In in Hc. rewrite Hc. unfold fetched. now rewrite Hs.
    + exact Hlens.
  - intros vals Hflags.
    destruct (@fetch_all_spec V t corr_idx (fun _ => True) usecols [])
      as [arrs [Hrun _]].
    { intros c Hc. destruct (Hcols c Hc) as [s Hs]. now exists s. }
    { constructor. }
    unfold load_ms_data, io_bind, table, io_lift, load_from.
    rewrite Hopen, Hrun. cbn [rbind].
    rewrite (truthy_Some Hfc), Hin. cbn [andb].
    rewrite Hflags. reflexivity.
Qed.

End IntFlags.

(** Integer flags 0, 1, 0 on three rows: the last, the middle and the last
    sample again.  And TIME, a column of floats, given as the flag
    column. *)
Lemma integer_flags_pick_from_the_end_witness :
  (exists df,
      load_ms_data
        (mk_env (listdir Demo.env) (isdir Demo.env) (path_exists Demo.env)
           (abspath Demo.env)
           (fun p => if String.eqb p "/w/int.ms" then Some Demo.int_flag_table
                     else None))
        "/w/int.ms" ["TIME"] None (Some "FLAG") []
      = (Ok df, [] ++ ["/w/int.ms"])
      /\ dict_get df "TIME" = Some (ValSeries [300; 200; 300]%Z))
  /\ load_ms_data Demo.env "/w/obs.ms" ["ANTENNA1"] None (Some "TIME") []
     = (Raise TypeError, [] ++ ["/w/obs.ms"]).
Proof.
  split.
  - destruct (@integer_flags_pick_from_the_end Z
                (mk_env (listdir Demo.env) (isdir Demo.env)
                   (path_exists Demo.env) (abspath Demo.env)
                   (fun p => if String.eqb p "/w/int.ms"
                             then Some Demo.int_flag_table else None))
                "/w/int.ms" Demo.int_flag_table ["TIME"] None "FLAG" [])
      as [Hint _].
    + reflexivity.
    + discriminate.
    + simpl. tauto.
    + intros c [<- | []]. eexists. reflexivity.
    + destruct (Hint [0; 1; 0]%Z 3) as (df & Hload & Hget & _).
      * reflexivity.
      * repeat constructor; lia.
      * intros c s [<- | []] Hs. vm_compute in Hs. injection Hs as <-.
        reflexivity.
      * exists df. split; [exact Hload |].
        rewrite (Hget "TIME" (ValSeries [100; 200; 300]%Z));
          [reflexivity | now left | reflexivity].
  - destruct (@integer_flags_pick_from_the_end Z Demo.env "/w/obs.ms"
                Demo.main_table ["ANTENNA1"] None "TIME" [])
      as [_ Hval].
    + reflexivity.
    + discriminate.
    + simpl. tauto.
    + intros c [<- | []]. eexists. reflexivity.
    + apply (Hval [100; 200]%Z). reflexivity.
Defined.

(** ** Start-up of the current version *)

Section StartUp.

Variable V : Type.
Variable Image : Type.
Variable Scalar : Type.
Variable env : Env V.

(** X21: the current version does not start.  [bokeh_app] creates the
    widgets, lists the working directory once, and raises ValueError when
    it registers the callback of the X selector (line 204): the lambda has
    no positional parameter where Bokeh asks for three.  The widgets hold
    what they were created with -- no selection, Plot and Export disabled,
    the empty figure -- and [plot_gui] raises this for every path. *)
Theorem bokeh_app_raises_at_registration :
  forall dirs ms_path,
    list_possible_ms_dirs env "." = Ok dirs ->
    bokeh_app Image Scalar env
    = Raised ValueError
        (mk_state None (mk_select dirs None) [] [] None None
           (mk_select [] None) (mk_select [] None)
           (mk_select ["None"] (Some "None")) (mk_multi [] [] false)
           true true "" (mk_figure "Scribble Plot" (empty_render Image Scalar))
           [] [])
    /\ plot_gui Image Scalar env ms_path = bokeh_app Image Scalar env.
Proof.
  intros dirs ms_path Hls. split.
  - unfold bokeh_app. rewrite Hls. reflexivity.
  - unfold plot_gui, app_wrapper. destruct (truthy ms_path); reflexivity.
Qed.

End StartUp.

Lemma bokeh_app_raises_at_registration_witness :
  exists s,
    plot_gui Demo.Image Z Demo.env (Some "/w/obs.ms") = Raised ValueError s
    /\ options (ms_select s) = Demo.ms_dirs
    /\ selected_ms s = None.
Proof.
  destruct (@bokeh_app_raises_at_registration Z Demo.Image Z Demo.env
              Demo.ms_dirs (Some "/w/obs.ms")) as [Happ Hgui].
  - vm_compute. reflexivity.
  - eexists. split; [rewrite Hgui; exact Happ |]. split; reflexivity.
Defined.
